(** * Tanzania building dataset: tiling, rasterisation and sampling

    A shallow embedding of [deeposlandia/datasets/tanzania.py].  Python
    values, exceptions and the few library calls the module relies on are
    modelled first; the functions of the module follow in source order of
    dependency; the properties of the specification come last. *)

From Stdlib Require Import ZArith QArith Bool List String Ascii Lia Floats.
From Stdlib Require Import Numbers.DecimalString Numbers.DecimalZ.
Import ListNotations.

Local Open Scope list_scope.
Local Open Scope Z_scope.

(** ** Python exceptions and fallible computations *)

Inductive exn : Type :=
| TypeError
| ValueError
| ZeroDivisionError
| OverflowError
| IndexError.

Inductive result (A : Type) : Type :=
| Ok (a : A)
| Raise (e : exn).

Arguments Ok {A} a.
Arguments Raise {A} e.

Definition bind {A B : Type} (m : result A) (k : A -> result B) : result B :=
  match m with
  | Ok a => k a
  | Raise e => Raise e
  end.

Definition fmap {A B : Type} (f : A -> B) (m : result A) : result B :=
  bind m (fun a => Ok (f a)).

Notation "x <- m ;; k" := (bind m (fun x => k))
  (at level 61, m at next level, right associativity).

(** A list comprehension [[f c for c in l]]: elements are computed from left
    to right and the first exception aborts the comprehension. *)
Fixpoint comprehension {A B : Type} (f : A -> result B) (l : list A)
  : result (list B) :=
  match l with
  | [] => Ok []
  | c :: l' => b <- f c ;; bs <- comprehension f l' ;; Ok (b :: bs)
  end.

(** ** Python floats

    The arithmetic the module performs on [float] values, as an interface:
    [int] operands are converted with [float_of_int] before a mixed operation,
    [/] raises on a zero divisor, and [int(x)] truncates towards zero. *)

Class PyFloat (F : Type) : Type := {
  float_of_int : Z -> result F;
  float_add : F -> F -> F;
  float_sub : F -> F -> F;
  float_mul : F -> F -> F;
  float_truediv : F -> F -> result F;
  int_of_float : F -> result Z
}.

(** IEEE 754 binary64, the representation CPython uses. *)
Module Binary64.

(** [float(z)]: correctly rounded, [OverflowError] when out of range. *)
Definition of_int (z : Z) : result float :=
  let f := SF2Prim (binary_normalize prec emax z 0 false) in
  if PrimFloat.is_infinity f then Raise OverflowError else Ok f.

Definition truediv (a b : float) : result float :=
  if PrimFloat.eqb b PrimFloat.zero then Raise ZeroDivisionError
  else Ok (PrimFloat.div a b).

(** [int(x)]: the integer part of a finite float. *)
Definition to_int (x : float) : result Z :=
  match Prim2SF x with
  | S754_zero _ => Ok 0
  | S754_finite s m e =>
      let a := match e with
               | Zneg p => Z.shiftr (Zpos m) (Zpos p)
               | _ => Z.shiftl (Zpos m) e
               end in
      Ok (if s then - a else a)
  | S754_infinity _ => Raise OverflowError
  | S754_nan => Raise ValueError
  end.

(** [z < x] for an [int] z and a [float] x: Python compares the exact
    values. *)
Definition int_lt (z : Z) (x : float) : bool :=
  match Prim2SF x with
  | S754_zero _ => z <? 0
  | S754_finite s m e =>
      let v := if s then Zneg m else Zpos m in
      match e with
      | Zneg p => Z.shiftl z (Zpos p) <? v
      | _ => z <? Z.shiftl v e
      end
  | S754_infinity s => negb s
  | S754_nan => false
  end.

End Binary64.

#[export] Instance binary64 : PyFloat float := {
  float_of_int := Binary64.of_int;
  float_add := PrimFloat.add;
  float_sub := PrimFloat.sub;
  float_mul := PrimFloat.mul;
  float_truediv := Binary64.truediv;
  int_of_float := Binary64.to_int
}.

(** Exact rational arithmetic: the same operations without rounding. *)
Module Exact.

Definition truediv (a b : Q) : result Q :=
  if Qeq_bool b (0 # 1) then Raise ZeroDivisionError else Ok (Qdiv a b).

Definition to_int (x : Q) : result Z :=
  Ok (Z.quot (Qnum x) (Zpos (Qden x))).

End Exact.

(** The interpretation of the interface in exact arithmetic. *)
Definition exact : PyFloat Q := {|
  float_of_int := fun z => Ok (inject_Z z);
  float_add := Qplus;
  float_sub := Qminus;
  float_mul := Qmult;
  float_truediv := Exact.truediv;
  int_of_float := Exact.to_int
|}.

(** ** Coordinate transforms *)

Section Coordinates.

Context {F : Type} {num : PyFloat F}.

#[local] Unset Elimination Schemes.

(** The Python values a caller may pass as [coord]. *)
Inductive pyval : Type :=
| PNone
| PBool (b : bool)
| PInt (z : Z)
| PFloat (f : F)
| PStr (s : string)
| PList (l : list pyval)
| PTuple (l : list pyval).

#[local] Set Elimination Schemes.

(** The coercion of an operand of [-] or [*] whose other operand is a
    float: [bool] and [int] convert, any other type is a [TypeError]. *)
Definition as_float (c : pyval) : result F :=
  match c with
  | PFloat f => Ok f
  | PInt z => float_of_int z
  | PBool b => float_of_int (if b then 1 else 0)
  | _ => Raise TypeError
  end.

(** [int(size * (c - min_coord) / (max_coord - min_coord))] *)
Definition pixel_of (min_coord max_coord : F) (size : Z) (c : pyval)
  : result Z :=
  c' <- as_float c ;;
  s <- float_of_int size ;;
  q <- float_truediv (float_mul s (float_sub c' min_coord))
                     (float_sub max_coord min_coord) ;;
  int_of_float q.

Definition get_pixel (coord : pyval) (min_coord max_coord : F) (size : Z)
  : result pyval :=
  match coord with
  | PList l =>
      fmap PList
        (comprehension
           (fun c => fmap PInt (pixel_of min_coord max_coord size c)) l)
  | PFloat _ => fmap PInt (pixel_of min_coord max_coord size coord)
  | _ => Raise TypeError
  end.

(** [min_coord + c * (max_coord - min_coord) / size] *)
Definition geocoord_of (min_coord max_coord : F) (size : Z) (c : pyval)
  : result F :=
  c' <- as_float c ;;
  s <- float_of_int size ;;
  q <- float_truediv (float_mul c' (float_sub max_coord min_coord)) s ;;
  Ok (float_add min_coord q).

Definition get_geocoord (coord : pyval) (min_coord max_coord : F) (size : Z)
  : result pyval :=
  match coord with
  | PList l =>
      fmap PList
        (comprehension
           (fun c => fmap PFloat (geocoord_of min_coord max_coord size c)) l)
  | PInt _ | PBool _ =>
      fmap PFloat (geocoord_of min_coord max_coord size coord)
  | _ => Raise TypeError
  end.

End Coordinates.

Arguments pyval F : clear implicits.

(** ** Python strings and POSIX paths

    Strings are sequences of 8-bit characters; [str.lower] is modelled on the
    ASCII letters, which is where the label names live. *)

Local Open Scope string_scope.

(** [str(z)] for an [int]. *)
Definition str_of_int (z : Z) : string :=
  NilEmpty.string_of_int (Z.to_int z).

Definition lower_ascii (c : ascii) : ascii :=
  let n := nat_of_ascii c in
  if andb (Nat.leb 65 n) (Nat.leb n 90) then ascii_of_nat (n + 32) else c.

Fixpoint lower (s : string) : string :=
  match s with
  | EmptyString => EmptyString
  | String c s' => String (lower_ascii c) (lower s')
  end.

(** [old in s] *)
Fixpoint contains (old s : string) : bool :=
  match s with
  | EmptyString => prefix old EmptyString
  | String _ s' => prefix old s || contains old s'
  end.

(** [s.replace(old, new)] for a non-empty [old]: occurrences are replaced
    from left to right and do not overlap ([skip] counts the characters of a
    replaced occurrence still to be dropped). *)
Fixpoint replace_from (old new : string) (skip : nat) (s : string) : string :=
  match s with
  | EmptyString => EmptyString
  | String c s' =>
      match skip with
      | S k => replace_from old new k s'
      | O =>
          if prefix old s
          then new ++ replace_from old new (Nat.pred (String.length old)) s'
          else String c (replace_from old new 0 s')
      end
  end.

Definition replace (old new s : string) : string := replace_from old new 0 s.

Fixpoint mem_char (c : ascii) (s : string) : bool :=
  match s with
  | EmptyString => false
  | String d s' => Ascii.eqb c d || mem_char c s'
  end.

(** [s.rfind(c)] for a one-character [c]: the highest index, or [-1]. *)
Fixpoint rfind (c : ascii) (s : string) : Z :=
  match s with
  | EmptyString => -1
  | String d s' =>
      let r := rfind c s' in
      if (0 <=? r)%Z then r + 1 else if Ascii.eqb c d then 0 else -1
  end.

(** [s[i:]] and [s[:i]] for [0 <= i]. *)
Definition str_from (i : Z) (s : string) : string :=
  substring (Z.to_nat i) (String.length s - Z.to_nat i) s.

Definition str_upto (i : Z) (s : string) : string :=
  substring 0 (Z.to_nat i) s.

Fixpoint last_char (s : string) : option ascii :=
  match s with
  | EmptyString => None
  | String c s' =>
      match s' with
      | EmptyString => Some c
      | String _ _ => last_char s'
      end
  end.

(** [s.endswith("/")] *)
Definition ends_with_sep (s : string) : bool :=
  match last_char s with
  | Some c => Ascii.eqb c "/"
  | None => false
  end.

Module os_path.

(** [posixpath.basename] *)
Definition basename (p : string) : string := str_from (rfind "/" p + 1) p.

(** The scan of [genericpath._splitext] over the leading dots of the file
    name: [true] when a character other than a dot stands at an index in
    [[i, i + n)]. *)
Fixpoint has_non_dot (p : string) (i : nat) (n : nat) : bool :=
  match n with
  | O => false
  | S n' =>
      match get i p with
      | Some c => if Ascii.eqb c "." then has_non_dot p (S i) n' else true
      | None => true
      end
  end.

(** [posixpath.splitext] *)
Definition splitext (p : string) : string * string :=
  let sepIndex := rfind "/" p in
  let dotIndex := rfind "." p in
  if andb (sepIndex <? dotIndex)%Z
          (has_non_dot p (Z.to_nat (sepIndex + 1))
                       (Z.to_nat (dotIndex - (sepIndex + 1))))
  then (str_upto dotIndex p, str_from dotIndex p)
  else (p, EmptyString).

(** One step of [posixpath.join]. *)
Definition join2 (path b : string) : string :=
  if prefix "/" b then b
  else if orb (String.eqb path EmptyString) (ends_with_sep path)
       then path ++ b
       else path ++ "/" ++ b.

Definition join (a : string) (p : list string) : string :=
  fold_left join2 p a.

End os_path.

(** ** The dataset and its label registry *)

Record label : Type := {
  label_id : Z;
  label_name : string;
  label_color : list Z;
  label_is_evaluate : bool
}.

Record TanzaniaDataset : Type := {
  image_size : Z;
  labels : list label
}.

(** Modelled from the spec: [Dataset.__init__] and [Dataset.add_label] of the
    base class, which keeps the registry as an ordered list of labels
    [{id, name, color, is_evaluate}] and appends to it. *)
Definition Dataset_init (img_size : Z) : TanzaniaDataset :=
  {| image_size := img_size; labels := [] |}.

Definition add_label (ds : TanzaniaDataset) (id : Z) (name : string)
           (color : list Z) (is_evaluate : bool) : TanzaniaDataset :=
  {| image_size := image_size ds;
     labels := (labels ds ++
                [{| label_id := id; label_name := name;
                    label_color := color;
                    label_is_evaluate := is_evaluate |}])%list |}.

(** Modelled from the spec: [Dataset.get_nb_labels], the size of the
    registry. *)
Definition get_nb_labels (ds : TanzaniaDataset) : Z :=
  Z.of_nat (List.length (labels ds)).

Definition BACKGROUND_COLOR : list Z := [0; 0; 0]%list.
Definition COMPLETE_COLOR : list Z := [50; 200; 50]%list.
Definition INCOMPLETE_COLOR : list Z := [200; 200; 50]%list.
Definition FOUNDATION_COLOR : list Z := [200; 50; 50]%list.

(** [TanzaniaDataset.__init__] *)
Definition TanzaniaDataset_init (img_size : Z) : TanzaniaDataset :=
  let self := Dataset_init img_size in
  let self := add_label self 0 "background" BACKGROUND_COLOR true in
  let self := add_label self 1 "complete" COMPLETE_COLOR true in
  let self := add_label self 2 "incomplete" INCOMPLETE_COLOR true in
  add_label self 3 "foundation" FOUNDATION_COLOR true.

(** ** File names of preprocessed tiles *)

Record filenames : Type := {
  fn_image : string;
  fn_labels : string
}.

(** The file name of a tile, without its directory. *)
Definition new_filename (self : TanzaniaDataset) (image_filename : string)
           (x y : Z) (suffix : option string) : string :=
  let basename_decomp := os_path.splitext (os_path.basename image_filename) in
  let img_id_str :=
    str_of_int (image_size self) ++ "_" ++ str_of_int (image_size self) ++ "_"
    ++ str_of_int x ++ "_" ++ str_of_int y in
  let img_id_str :=
    match suffix with
    | None => img_id_str
    | Some sfx => img_id_str ++ "_" ++ sfx
    end in
  fst basename_decomp ++ "_" ++ img_id_str ++ ".png".

Definition _generate_preprocessed_filenames (self : TanzaniaDataset)
           (image_filename output_dir : string) (x y : Z)
           (suffix : option string) : filenames :=
  let out_image_name :=
    os_path.join output_dir
      ["images"; new_filename self image_filename x y suffix]%list in
  let out_label_name := replace "images" "labels" out_image_name in
  {| fn_image := out_image_name; fn_labels := out_label_name |}.

(** ** Rasters, labels and tiles *)

Local Open Scope Z_scope.

(** A polygon as the coordinates of its exterior ring. *)
Definition polygon : Type := list (float * float).

(** A row of the label table: [condition] and [geometry]. *)
Record building : Type := {
  condition : string;
  geometry : polygon
}.

(** A row of the label file as read, where either column may be missing. *)
Record raw_building : Type := {
  raw_condition : option string;
  raw_geometry : option polygon
}.

Record image_features : Type := {
  west : float;
  south : float;
  east : float;
  north : float;
  srid : Z;
  width : Z;
  height : Z
}.

Definition pixel : Type := list Z.

(** An image or an array of pixels, as the list of its rows. *)
Definition image : Type := list (list pixel).

(** A mask of label ids ([numpy.uint8]), as the list of its rows. *)
Definition mask : Type := list (list Z).

(** An opened raster: its size, its affine transform [gt], its projection
    string and its pixels as [np.swapaxes(raster.ReadAsArray(), 0, 2)]
    presents them. *)
Record raster : Type := {
  RasterXSize : Z;
  RasterYSize : Z;
  gt0 : float; gt1 : float; gt3 : float; gt5 : float;
  Projection : string;
  image_data : image
}.

(** The dictionary returned for a tile; [tile_labels] is its key
    ["labels"], and the two keys of the labelled version are absent in
    exhaustive mode. *)
Record tile_record (label_dict : Type) : Type := {
  raw_filename : string;
  image_filename : string;
  label_filename : option string;
  tile_labels : option label_dict
}.

Arguments raw_filename {label_dict} t.
Arguments image_filename {label_dict} t.
Arguments label_filename {label_dict} t.
Arguments tile_labels {label_dict} t.

(** The files written so far, oldest first. *)
Definition disk : Type := list (string * image).

Definition save (img : image) (path : string) (d : disk) : disk :=
  (d ++ [(path, img)])%list.

(** *** Python and NumPy helpers *)

(** [range(start, stop, step)] *)
Definition py_range (start stop step : Z) : result (list Z) :=
  if step =? 0 then Raise ValueError
  else
    let n := if 0 <? step then (stop - start + step - 1) / step
             else (start - stop - step - 1) / (- step) in
    Ok (map (fun i => start + Z.of_nat i * step) (seq 0 (Z.to_nat n))).

(** [l[lo:hi]] *)
Definition py_slice {A : Type} (lo hi : Z) (l : list A) : list A :=
  let n := Z.of_nat (List.length l) in
  let clamp i := if i <? 0 then Z.max 0 (i + n) else Z.min i n in
  firstn (Z.to_nat (clamp hi - clamp lo)) (skipn (Z.to_nat (clamp lo)) l).

(** [a[x0:x1, y0:y1]] on a two-dimensional array. *)
Definition py_slice2 {A : Type} (x0 x1 y0 y1 : Z) (a : list (list A))
  : list (list A) :=
  map (py_slice y0 y1) (py_slice x0 x1 a).

(** [np.zeros(shape=(n, n), dtype=np.uint8)] *)
Definition np_zeros (n : Z) : result mask :=
  if n <? 0 then Raise ValueError
  else Ok (repeat (repeat 0 (Z.to_nat n)) (Z.to_nat n)).

Fixpoint mapi_from {A B : Type} (f : Z -> A -> B) (i : Z) (l : list A)
  : list B :=
  match l with
  | [] => []
  | a :: l' => f i a :: mapi_from f (i + 1) l'
  end.

(** The conversion of a colour scalar to a [uint8] cell. *)
Definition saturate_uint8 (z : Z) : Z := Z.max 0 (Z.min 255 z).

(** [np.array(rows, dtype=np.int32)] on integer pairs, NumPy 1.x: an integer
    outside the C [long] range is an [OverflowError], any other is stored
    modulo [2^32]. *)
Definition wrap_int32 (z : Z) : Z := (z + 2 ^ 31) mod 2 ^ 32 - 2 ^ 31.

Definition to_int32 (z : Z) : result Z :=
  if andb (- 2 ^ 63 <=? z) (z <? 2 ^ 63) then Ok (wrap_int32 z)
  else Raise OverflowError.

Definition PIL_FLIP_LEFT_RIGHT (img : image) : image := map (@rev pixel) img.
Definition PIL_FLIP_TOP_BOTTOM (img : image) : image := rev img.

(** The items of a list of [int]s. *)
Definition int_items (v : pyval float) : list Z :=
  match v with
  | PList l =>
      flat_map (fun c => match c with PInt z => [z] | _ => [] end) l
  | _ => []
  end.

Definition float_item (v : pyval float) : result float :=
  match v with
  | PFloat f => Ok f
  | _ => Raise TypeError
  end.

(** *** Geometry of the raster *)

Definition get_tile_footprint (features : image_features)
           (min_x min_y tile_width : Z) (tile_height : option Z)
  : result polygon :=
  let tile_height :=
    match tile_height with None => tile_width | Some h => h end in
  min_x_coord <- bind (get_geocoord (PInt min_x) (west features)
                         (east features) (width features)) float_item ;;
  min_y_coord <- bind (get_geocoord (PInt min_y) (north features)
                         (south features) (height features)) float_item ;;
  max_x_coord <- bind (get_geocoord (PInt (min_x + tile_width))
                         (west features) (east features) (width features))
                      float_item ;;
  max_y_coord <- bind (get_geocoord (PInt (min_y + tile_height))
                         (north features) (south features) (height features))
                      float_item ;;
  Ok [(min_x_coord, min_y_coord); (max_x_coord, min_y_coord);
      (max_x_coord, max_y_coord); (min_x_coord, max_y_coord)].

Definition extract_points_from_polygon (p : polygon)
           (features : image_features) (min_x min_y : Z)
  : result (list (Z * Z)) :=
  xs <- get_pixel (PList (map (fun c => PFloat (fst c)) p))
          (west features) (east features) (width features) ;;
  ys <- get_pixel (PList (map (fun c => PFloat (snd c)) p))
          (north features) (south features) (height features) ;;
  points <- comprehension
              (fun xy => r <- to_int32 (snd xy) ;; c <- to_int32 (fst xy) ;;
                         Ok (r, c))
              (combine (int_items xs) (int_items ys)) ;;
  match points with
  | [] => Raise IndexError
  | _ =>
      Ok (map (fun rc => (wrap_int32 (fst rc - min_y),
                          wrap_int32 (snd rc - min_x))) points)
  end.

(** The labels of the table: rows without geometry are dropped and a missing
    condition is read as ["Complete"]. *)
Definition clean_labels (rows : list raw_building) : list building :=
  flat_map
    (fun r =>
       match raw_geometry r with
       | None => []
       | Some g =>
           [{| condition := match raw_condition r with
                            | None => "Complete"%string
                            | Some c => c
                            end;
               geometry := g |}]
       end)
    rows.

Section Pipeline.

(** The collaborators of the module: the polygon rasteriser of OpenCV, the
    spatial join and overlay of GeoPandas, GDAL, the label summary and the
    colouring of [deeposlandia.utils], and NumPy's random generator. *)
Variable polygon_covers : list (Z * Z) -> Z -> Z -> bool.
Variable clip_labels : Z -> polygon -> list building -> list building.
Variable gdal_Open : string -> raster.
Variable gdal_Translate : raster -> Z -> Z -> Z -> Z -> image.
Variable parse_srid : string -> result Z.
Variable read_file : string -> list raw_building.
Variable label_dict : Type.
Variable build_labels : mask -> list Z -> string -> label_dict.
Variable build_image_from_config : mask -> list label -> image.
Variable rng : Type.
Variable randint_draw : rng -> Z -> Z -> Z * rng.

(** [cv2.fillPoly(mask, [points], color)]: the cells the polygon covers
    take the colour, the others keep their value. *)
Definition cv2_fillPoly (m : mask) (points : list (Z * Z)) (color : Z)
  : mask :=
  mapi_from
    (fun r row =>
       mapi_from
         (fun c v =>
            if polygon_covers points r c then saturate_uint8 color else v)
         0 row)
    0 m.

(** [np.random.randint(low, high)] *)
Definition np_random_randint (g : rng) (low high : Z) : result (Z * rng) :=
  if high <=? low then Raise ValueError else Ok (randint_draw g low high).

Definition get_image_features (r : raster) : result image_features :=
  let width := RasterXSize r in
  let height := RasterYSize r in
  let minx := gt0 r in
  h <- float_of_int height ;;
  let miny := PrimFloat.add (gt3 r) (PrimFloat.mul h (gt5 r)) in
  w <- float_of_int width ;;
  let maxx := PrimFloat.add (gt0 r) (PrimFloat.mul w (gt1 r)) in
  let maxy := gt3 r in
  srid <- parse_srid (Projection r) ;;
  Ok {| west := minx; south := miny; east := maxx; north := maxy;
        srid := srid; width := width; height := height |}.

Definition extract_tile_items (raster_features : image_features)
           (labels : list building) (min_x min_y tile_width tile_height : Z)
  : result (list building) :=
  area <- get_tile_footprint raster_features min_x min_y tile_width
            (Some tile_height) ;;
  Ok (clip_labels (srid raster_features) area labels).

(** The id of the label named [name]: element [0] of the ids of the
    labels with that name. *)
Definition label_id_of (self : TanzaniaDataset) (name : string) : result Z :=
  match filter (fun l => String.eqb (label_name l) name) (labels self) with
  | [] => Raise IndexError
  | l :: _ => Ok (label_id l)
  end.

(** The loop of [load_mask] over the rows of [buildings]. *)
Fixpoint fill_buildings (self : TanzaniaDataset) (m : mask)
         (rows : list building) (raster_features : image_features)
         (min_x min_y : Z) : result mask :=
  match rows with
  | [] => Ok m
  | row :: rows' =>
      points <- extract_points_from_polygon (geometry row) raster_features
                  min_x min_y ;;
      label_id <- label_id_of self (lower (condition row)) ;;
      fill_buildings self (cv2_fillPoly m points label_id) rows'
                     raster_features min_x min_y
  end.

Definition load_mask (self : TanzaniaDataset) (buildings : list building)
           (raster_features : image_features) (min_x min_y : Z)
  : result mask :=
  m <- np_zeros (image_size self) ;;
  if Z.of_nat (List.length buildings) =? 0 then Ok m
  else fill_buildings self m buildings raster_features min_x min_y.

(** *** Serialisation *)

Definition _serialize (self : TanzaniaDataset)
           (tile_image labelled_image : image) (labels : label_dict)
           (image_filename output_dir : string) (x y : Z)
           (suffix : option string) (d : disk)
  : tile_record label_dict * disk :=
  let dirs := _generate_preprocessed_filenames self image_filename
                output_dir x y suffix in
  let d := save tile_image (fn_image dirs) d in
  let d := save labelled_image (fn_labels dirs) d in
  ({| raw_filename := image_filename;
      image_filename := fn_image dirs;
      label_filename := Some (fn_labels dirs);
      tile_labels := Some labels |}, d).

Definition _preprocess_tile (self : TanzaniaDataset) (x y : Z)
           (image_filename output_dir : string) (r : raster) (d : disk)
  : tile_record label_dict * disk :=
  let dirs := _generate_preprocessed_filenames self image_filename
                output_dir x y None in
  let d := save (gdal_Translate r x y (image_size self) (image_size self))
                (fn_image dirs) d in
  ({| raw_filename := image_filename;
      image_filename := fn_image dirs;
      label_filename := None;
      tile_labels := None |}, d).

(** *** Exhaustive tiling *)

(** The inner loop, over [y], at a fixed [x]. *)
Fixpoint inference_column (self : TanzaniaDataset) (x : Z) (ys : list Z)
         (image_filename output_dir : string) (r : raster)
         (acc : list (tile_record label_dict) * disk)
  : list (tile_record label_dict) * disk :=
  match ys with
  | [] => acc
  | y :: ys' =>
      let (tile_results, d) :=
        _preprocess_tile self x y image_filename output_dir r (snd acc) in
      inference_column self x ys' image_filename output_dir r
                       ((fst acc ++ [tile_results])%list, d)
  end.

(** The outer loop, over [x]; the inner range is built at each turn. *)
Fixpoint inference_rows (self : TanzaniaDataset) (xs : list Z)
         (image_filename output_dir : string) (r : raster)
         (raw_img_height : Z)
         (acc : list (tile_record label_dict) * disk)
  : result (list (tile_record label_dict) * disk) :=
  match xs with
  | [] => Ok acc
  | x :: xs' =>
      ys <- py_range 0 raw_img_height (image_size self) ;;
      inference_rows self xs' image_filename output_dir r raw_img_height
        (inference_column self x ys image_filename output_dir r acc)
  end.

Definition _preprocess_for_inference (self : TanzaniaDataset)
           (image_filename output_dir : string) (d : disk)
  : result (list (tile_record label_dict) * disk) :=
  let r := gdal_Open image_filename in
  let raw_img_width := RasterXSize r in
  let raw_img_height := RasterYSize r in
  xs <- py_range 0 raw_img_width (image_size self) ;;
  inference_rows self xs image_filename output_dir r raw_img_height ([], d).

(** *** Random sampling with augmentation *)

(** The local variables of [_preprocess_for_training] that the loop
    updates, with the generator and the files it acts on. *)
Record loop_state : Type := {
  nb_attempts : Z;
  image_counter : Z;
  empty_image_counter : Z;
  result_dicts : list (tile_record label_dict);
  rng_state : rng;
  files : disk
}.

(** What one turn of the loop computes before it decides on the tile. *)
Record tile_draw : Type := {
  draw_x : Z;
  draw_y : Z;
  draw_rng : rng;
  draw_tile_image : image;
  draw_tile_items : list building;
  draw_label_dict : label_dict;
  draw_labelled_image : image
}.

(** How the loop ended: normally, or on an exception raised by a turn that
    started in the given state. *)
Inductive outcome : Type :=
| Finished (st : loop_state)
| Raised (e : exn) (st : loop_state).

Definition final_state (o : outcome) : loop_state :=
  match o with
  | Finished st => st
  | Raised _ st => st
  end.

(** [range(n)] *)
Definition py_range1 (n : Z) : list Z := map Z.of_nat (seq 0 (Z.to_nat n)).

(** The literal [0.1]. *)
Definition one_tenth : float := 0x1.999999999999ap-4%float.

Section Sampling.

Variable self : TanzaniaDataset.
Variable image_filename : string.
Variable output_dir : string.
Variable nb_images : Z.
Variable r : raster.
Variable table : list building.

Definition draw_tile (st : loop_state) : result tile_draw :=
  let raw_img_width := RasterXSize r in
  let raw_img_height := RasterYSize r in
  xg <- np_random_randint (rng_state st) 0
          (raw_img_width - image_size self) ;;
  let x := fst xg in
  yg <- np_random_randint (snd xg) 0 (raw_img_height - image_size self) ;;
  let y := fst yg in
  let tile_data :=
    py_slice2 x (x + image_size self) y (y + image_size self)
              (image_data r) in
  let tile_image := tile_data in
  raster_features <- get_image_features r ;;
  tile_items <- extract_tile_items raster_features table x y
                  (image_size self) (image_size self) ;;
  m <- load_mask self tile_items raster_features x y ;;
  let label_dict := build_labels m (py_range1 (get_nb_labels self))
                                 "tanzania" in
  let labelled_image := build_image_from_config m (labels self) in
  Ok {| draw_x := x; draw_y := y; draw_rng := snd yg;
        draw_tile_image := tile_image; draw_tile_items := tile_items;
        draw_label_dict := label_dict;
        draw_labelled_image := labelled_image |}.

(** The four serialisations of a tile with buildings. *)
Definition serialize_four (t : tile_draw) (d : disk)
  : list (tile_record label_dict) * disk :=
  let tile_image := draw_tile_image t in
  let labelled_image := draw_labelled_image t in
  let ser img lab sfx d :=
    _serialize self img lab (draw_label_dict t) image_filename output_dir
               (draw_x t) (draw_y t) (Some sfx) d in
  let (tiled_results, d) := ser tile_image labelled_image "nw"%string d in
  let tile_image_ne := PIL_FLIP_LEFT_RIGHT tile_image in
  let labelled_image_ne := PIL_FLIP_LEFT_RIGHT labelled_image in
  let (tiled_results_ne, d) :=
    ser tile_image_ne labelled_image_ne "ne"%string d in
  let tile_image_sw := PIL_FLIP_TOP_BOTTOM tile_image in
  let labelled_image_sw := PIL_FLIP_TOP_BOTTOM labelled_image in
  let (tiled_results_sw, d) :=
    ser tile_image_sw labelled_image_sw "sw"%string d in
  let tile_image_se := PIL_FLIP_LEFT_RIGHT tile_image_sw in
  let labelled_image_se := PIL_FLIP_LEFT_RIGHT labelled_image_sw in
  let (tiled_results_se, d) :=
    ser tile_image_se labelled_image_se "se"%string d in
  ([tiled_results; tiled_results_ne; tiled_results_sw; tiled_results_se],
   d).

(** [empty_image_counter < 0.1 * nb_images] *)
Definition under_empty_quota (empty_image_counter : Z) : result bool :=
  n <- float_of_int nb_images ;;
  Ok (Binary64.int_lt empty_image_counter (PrimFloat.mul one_tenth n)).

(** The branch on [len(tile_items) > 0]. *)
Definition accept_tile (st : loop_state) (t : tile_draw)
  : result loop_state :=
  if 0 <? Z.of_nat (List.length (draw_tile_items t)) then
    let (records, d) := serialize_four t (files st) in
    Ok {| nb_attempts := nb_attempts st;
          image_counter := image_counter st + 1 + 1 + 1 + 1;
          empty_image_counter := empty_image_counter st;
          result_dicts := (result_dicts st ++ records)%list;
          rng_state := draw_rng t;
          files := d |}
  else
    quota <- under_empty_quota (empty_image_counter st) ;;
    if (quota : bool) then
      let (tiled_results, d) :=
        _serialize self (draw_tile_image t) (draw_labelled_image t)
                   (draw_label_dict t) image_filename output_dir
                   (draw_x t) (draw_y t) (Some "nw"%string) (files st) in
      Ok {| nb_attempts := nb_attempts st;
            image_counter := image_counter st + 1;
            empty_image_counter := empty_image_counter st + 1;
            result_dicts := (result_dicts st ++ [tiled_results])%list;
            rng_state := draw_rng t;
            files := d |}
    else
      Ok {| nb_attempts := nb_attempts st;
            image_counter := image_counter st;
            empty_image_counter := empty_image_counter st;
            result_dicts := result_dicts st;
            rng_state := draw_rng t;
            files := files st |}.

(** One turn of the [while] loop. *)
Definition loop_body (st : loop_state) : result loop_state :=
  t <- draw_tile st ;;
  st' <- accept_tile st t ;;
  Ok {| nb_attempts := nb_attempts st' + 1;
        image_counter := image_counter st';
        empty_image_counter := empty_image_counter st';
        result_dicts := result_dicts st';
        rng_state := rng_state st';
        files := files st' |}.

(** [image_counter < nb_images and nb_attempts < 2 * nb_images] *)
Definition loop_guard (st : loop_state) : bool :=
  andb (image_counter st <? nb_images) (nb_attempts st <? 2 * nb_images).

(** The loop, run for at most [fuel] tests of its guard. *)
Fixpoint while_loop (fuel : nat) (st : loop_state) : option outcome :=
  match fuel with
  | O => None
  | S fuel' =>
      if loop_guard st then
        match loop_body st with
        | Ok st' => while_loop fuel' st'
        | Raise e => Some (Raised e st)
        end
      else Some (Finished st)
  end.

(** [loop_runs k st o]: started in [st], the loop ends with [o] after
    entering its body [k] times. *)
Inductive loop_runs : nat -> loop_state -> outcome -> Prop :=
| runs_exit st :
    loop_guard st = false -> loop_runs 0 st (Finished st)
| runs_raise st e :
    loop_guard st = true -> loop_body st = Raise e ->
    loop_runs 1 st (Raised e st)
| runs_turn st st' k o :
    loop_guard st = true -> loop_body st = Ok st' ->
    loop_runs k st' o -> loop_runs (S k) st o.

Definition initial_state (g : rng) (d : disk) : loop_state :=
  {| nb_attempts := 0; image_counter := 0; empty_image_counter := 0;
     result_dicts := []; rng_state := g; files := d |}.

End Sampling.

Definition _preprocess_for_training (fuel : nat) (self : TanzaniaDataset)
           (image_filename output_dir : string) (nb_images : Z)
           (g : rng) (d : disk) : option outcome :=
  let r := gdal_Open image_filename in
  let label_filename :=
    replace ".tif" ".geojson" (replace "images" "labels" image_filename) in
  let table := clean_labels (read_file label_filename) in
  while_loop self image_filename output_dir nb_images r table fuel
             (initial_state g d).

End Pipeline.

(** ** Vocabulary of the properties *)

(** The round trip of the specification: pixel [p] goes to a geographic
    coordinate and comes back within one pixel of [p]. *)
Definition roundtrip_within_1 {F : Type} (num : PyFloat F)
           (p : Z) (min_coord max_coord : F) (size : Z) : Prop :=
  exists g q,
    get_geocoord (PInt p) min_coord max_coord size = Ok (PFloat g) /\
    get_pixel (PFloat g) min_coord max_coord size = Ok (PInt q) /\
    Z.abs (q - p) <= 1.

(** The same, as a test on binary64 values. *)
Definition roundtrip_check (min_coord max_coord : float) (size p : Z) : bool :=
  match get_geocoord (PInt p) min_coord max_coord size with
  | Ok (PFloat g) =>
      match get_pixel (PFloat g) min_coord max_coord size with
      | Ok (PInt q) => Z.abs (q - p) <=? 1
      | _ => false
      end
  | _ => false
  end.

(** A raster of 4000 columns over 256 m, in UTM coordinates. *)
Definition sample_west : float := 532840.25%float.
Definition sample_east : float := 533096.25%float.
Definition sample_width : Z := 4000.

Definition is_number {F : Type} (c : pyval F) : bool :=
  match c with
  | PBool _ | PInt _ | PFloat _ => true
  | _ => false
  end.

(** A directory as [join] leaves it in front of the next component. *)
Definition with_sep (dir : string) : string :=
  if orb (dir =? "")%string (ends_with_sep dir) then dir
  else (dir ++ "/")%string.

(** The part of the file name of a tile after the stem. *)
Definition tile_tag (self : TanzaniaDataset) (x y : Z) (suffix : option string)
  : string :=
  (str_of_int (image_size self) ++ "_" ++ str_of_int (image_size self) ++ "_"
   ++ str_of_int x ++ "_" ++ str_of_int y
   ++ match suffix with
      | None => ""
      | Some sfx => "_" ++ sfx
      end
   ++ ".png")%string.

(** A mask of [n] rows of [n] cells. *)
Definition mask_shape (n : nat) (m : mask) : Prop :=
  List.length m = n /\ Forall (fun row => List.length row = n) m.

Definition mask_values (P : Z -> Prop) (m : mask) : Prop :=
  Forall (Forall P) m.

Definition label_ids (self : TanzaniaDataset) : list Z :=
  map label_id (labels self).

Definition label_names (self : TanzaniaDataset) : list string :=
  map label_name (labels self).

(** The polygon of a row converts to pixel vertices. *)
Definition convertible (features : image_features) (min_x min_y : Z)
           (b : building) : Prop :=
  exists points,
    extract_points_from_polygon (geometry b) features min_x min_y = Ok points.

(** The multiples of [step] below [stop]. *)
Definition multiples (stop step : Z) : list Z :=
  map (fun i => Z.of_nat i * step)
      (seq 0 (Z.to_nat ((stop + step - 1) / step))).

(** The origins of the tiles of a raster, column by column. *)
Definition grid (raw_img_width raw_img_height step : Z) : list (Z * Z) :=
  flat_map (fun x => map (fun y => (x, y)) (multiples raw_img_height step))
           (multiples raw_img_width step).

Section TileRecords.

Variable label_dict : Type.

(** The record of the tile at [xy] in exhaustive mode. *)
Definition inference_record (self : TanzaniaDataset)
           (image_filename output_dir : string) (xy : Z * Z)
  : tile_record label_dict :=
  {| raw_filename := image_filename;
     image_filename :=
       fn_image (_generate_preprocessed_filenames self image_filename
                   output_dir (fst xy) (snd xy) None);
     label_filename := None;
     tile_labels := None |}.

(** The file of the tile at [xy] in exhaustive mode. *)
Definition inference_file (gdal_Open : string -> raster)
           (gdal_Translate : raster -> Z -> Z -> Z -> Z -> image)
           (self : TanzaniaDataset) (image_filename output_dir : string)
           (xy : Z * Z) : string * image :=
  (fn_image (_generate_preprocessed_filenames self image_filename
               output_dir (fst xy) (snd xy) None),
   gdal_Translate (gdal_Open image_filename) (fst xy) (snd xy)
                  (image_size self) (image_size self)).

(** The record of a sampled tile at [(x, y)] under an orientation suffix. *)
Definition record_of (self : TanzaniaDataset)
           (image_filename output_dir : string) (x y : Z) (labels : label_dict)
           (sfx : string) : tile_record label_dict :=
  {| raw_filename := image_filename;
     image_filename :=
       fn_image (_generate_preprocessed_filenames self image_filename
                   output_dir x y (Some sfx));
     label_filename :=
       Some (fn_labels (_generate_preprocessed_filenames self image_filename
                          output_dir x y (Some sfx)));
     tile_labels := Some labels |}.

(** The two files of a sampled tile under an orientation suffix. *)
Definition files_of (self : TanzaniaDataset)
           (image_filename output_dir : string) (x y : Z) (sfx : string)
           (tile labelled : image) : list (string * image) :=
  [(fn_image (_generate_preprocessed_filenames self image_filename
                output_dir x y (Some sfx)), tile);
   (fn_labels (_generate_preprocessed_filenames self image_filename
                 output_dir x y (Some sfx)), labelled)].

End TileRecords.

(** ** A small instance to run the pipeline on *)

Module Demo.

(** A rasteriser that fills the bounding box of the vertices. *)
Definition box_covers (points : list (Z * Z)) (r c : Z) : bool :=
  match points with
  | [] => false
  | p :: ps =>
      let rmin := fold_left Z.min (map fst ps) (fst p) in
      let rmax := fold_left Z.max (map fst ps) (fst p) in
      let cmin := fold_left Z.min (map snd ps) (snd p) in
      let cmax := fold_left Z.max (map snd ps) (snd p) in
      andb (andb (rmin <=? r) (r <=? rmax)) (andb (cmin <=? c) (c <=? cmax))
  end.

(** Every label meets every tile, or none does. *)
Definition clip_all (_ : Z) (_ : polygon) (t : list building)
  : list building := t.
Definition clip_none (_ : Z) (_ : polygon) (_ : list building)
  : list building := [].

(** A 100 x 100 raster of one band, 1 m per pixel, north up. *)
Definition raster_100 : raster :=
  {| RasterXSize := 100; RasterYSize := 100;
     gt0 := 533000%float; gt1 := 1%float;
     gt3 := 9250000%float; gt5 := (-1)%float;
     Projection := "EPSG:32737";
     image_data := repeat (repeat [7] 100) 100 |}.

Definition open_raster (_ : string) : raster := raster_100.
Definition translate (r : raster) (x y w h : Z) : image :=
  py_slice2 x (x + w) y (y + h) (image_data r).
Definition srid_32737 (_ : string) : result Z := Ok 32737.

(** One complete building and one row without a condition. *)
Definition label_file (_ : string) : list raw_building :=
  [ {| raw_condition := Some "Complete"%string;
       raw_geometry := Some [(533010, 9249990); (533020, 9249990);
                             (533020, 9249980); (533010, 9249980);
                             (533010, 9249990)]%float |};
    {| raw_condition := None;
       raw_geometry := Some [(533030, 9249970); (533040, 9249970);
                             (533040, 9249960); (533030, 9249970)]%float |}
  ].

(** The ids present in a mask. *)
Definition present_labels (m : mask) (ids : list Z) (_ : string)
  : list (Z * bool) :=
  map (fun i => (i, existsb (existsb (Z.eqb i)) m)) ids.

Definition colour_mask (m : mask) (ls : list label) : image :=
  map (map (fun v =>
              match find (fun l => label_id l =? v) ls with
              | Some l => label_color l
              | None => []
              end)) m.

(** A linear congruential generator. *)
Definition lcg_draw (g : Z) (low high : Z) : Z * Z :=
  (low + g mod (high - low), (1103515245 * g + 12345) mod 2 ^ 31).

Definition features_100 : image_features :=
  {| west := 533000%float; south := 9249900%float;
     east := 533100%float; north := 9250000%float;
     srid := 32737; width := 100; height := 100 |}.

(** The rows of the label file, and a row with a condition that the
    registry does not know. *)
Definition buildings : list building := clean_labels (label_file "").

Definition ruin : building :=
  {| condition := "Ruin";
     geometry := [(533050, 9249950); (533060, 9249950);
                  (533060, 9249940); (533050, 9249950)]%float |}.

(** The sampling loop on the sample raster, in tiles of 10 pixels, with a
    given overlay and target. *)
Abbreviation sample clip nb_images fuel :=
  (while_loop box_covers clip srid_32737 (list (Z * bool)) present_labels
              colour_mask Z lcg_draw (TanzaniaDataset_init 10)
              "data/images/grid_001.tif" "out" nb_images raster_100 buildings
              fuel (initial_state (list (Z * bool)) Z 42 [])).

(** How a run ended: normally or not, after how many attempts, with how
    many images counted and how many records. *)
Definition summary (o : outcome (list (Z * bool)) Z) : bool * Z * Z * nat :=
  match o with
  | Finished _ _ st =>
      (true, nb_attempts _ _ st, image_counter _ _ st,
       List.length (result_dicts _ _ st))
  | Raised _ _ _ st =>
      (false, nb_attempts _ _ st, image_counter _ _ st,
       List.length (result_dicts _ _ st))
  end.

End Demo.

(** ** Vocabulary of the further properties *)

Section FurtherVocabulary.

Local Open Scope list_scope.
Local Open Scope string_scope.
Local Open Scope Z_scope.

(** The end of a tile's file name, from the suffix on. *)
Definition tile_ending (suffix : option string) : string :=
  match suffix with
  | None => ".png"
  | Some sfx => "_" ++ sfx ++ ".png"
  end.

(** [m[r][c]] for non-negative indices. *)
Definition mask_cell (m : mask) (r c : Z) : option Z :=
  match nth_error m (Z.to_nat r) with
  | Some row => nth_error row (Z.to_nat c)
  | None => None
  end.

(** Two rows with the same polygon and the same condition up to case. *)
Definition same_up_to_case (b b' : building) : Prop :=
  geometry b = geometry b' /\ lower (condition b) = lower (condition b').

Definition in_int32 (z : Z) : Prop := - 2 ^ 31 <= z < 2 ^ 31.

(** A float that is a zero of either sign, or not a number. *)
Definition zero_or_nan (x : spec_float) : Prop :=
  (exists s, x = S754_zero s) \/ x = S754_nan.

(** The paths a record names: the image, then the labelled image when the
    record has one. *)
Definition record_paths {label_dict : Type} (rec : tile_record label_dict)
  : list string :=
  image_filename rec
  :: match label_filename rec with
     | Some l => [l]
     | None => []
     end.

(** A record of the labelled version of a tile of the raster [raw]. *)
Definition labelled_record {label_dict : Type} (raw : string)
           (rec : tile_record label_dict) : Prop :=
  raw_filename rec = raw /\
  label_filename rec
  = Some (replace "images" "labels" (image_filename rec)) /\
  tile_labels rec <> None.

(** An array of [w] rows of [h] cells. *)
Definition array_shape {A : Type} (w h : Z) (a : list (list A)) : Prop :=
  Z.of_nat (List.length a) = w /\
  Forall (fun row => Z.of_nat (List.length row) = h) a.

End FurtherVocabulary.

(** * Properties *)

(** ** Coordinate transforms *)

Local Open Scope Z_scope.

Lemma roundtrip_check_sound min_coord max_coord size p :
  roundtrip_check min_coord max_coord size p = true ->
  roundtrip_within_1 binary64 p min_coord max_coord size.
Proof.
  unfold roundtrip_check, roundtrip_within_1.
  destruct (get_geocoord (PInt p) min_coord max_coord size)
    as [[ | | |g| | | ]|] eqn:Hg; try discriminate.
  destruct (get_pixel (PFloat g) min_coord max_coord size)
    as [[ | |q| | | | ]|] eqn:Hp; try discriminate.
  intros Hq. exists g, q.
  split; [reflexivity|]. split; [exact Hp|]. now apply Z.leb_le.
Qed.

(** Truncation of a rational that is an integer. *)
Lemma exact_to_int_inject (x : Q) (p : Z) :
  Qeq x (inject_Z p) -> Exact.to_int x = Ok p.
Proof.
  unfold Exact.to_int, Qeq, inject_Z. simpl. intros E.
  rewrite Z.mul_1_r in E. rewrite E. f_equal.
  apply Z.quot_mul. discriminate.
Qed.

Lemma Qeq_bool_false_of_neq (x : Q) : ~ Qeq x (0 # 1) -> Qeq_bool x (0 # 1) = false.
Proof.
  intros N. destruct (Qeq_bool x (0 # 1)) eqn:E; [|reflexivity].
  apply Qeq_bool_eq in E. contradiction.
Qed.

(** In exact arithmetic the round trip is the identity. *)
Lemma roundtrip_exact (p : Z) (min_coord max_coord : Q) (size : Z) :
  (min_coord < max_coord)%Q -> 0 < size ->
  exists g,
    get_geocoord (num := exact) (PInt p) min_coord max_coord size
      = Ok (PFloat g) /\
    get_pixel (num := exact) (PFloat g) min_coord max_coord size
      = Ok (PInt p).
Proof.
  intros Hlt Hsize.
  assert (Hs : ~ Qeq (inject_Z size) (0 # 1)).
  { unfold Qeq, inject_Z. simpl. lia. }
  assert (Hd : ~ Qeq (max_coord - min_coord)%Q (0 # 1)).
  { intros E. apply (Qlt_irrefl min_coord).
    setoid_replace min_coord with max_coord at 2; [exact Hlt|].
    symmetry.
    setoid_replace max_coord with ((max_coord - min_coord) + min_coord)%Q
      by ring.
    rewrite E. ring. }
  eexists. split.
  - unfold get_geocoord, geocoord_of, fmap, bind. simpl.
    unfold Exact.truediv. rewrite (Qeq_bool_false_of_neq _ Hs). reflexivity.
  - unfold get_pixel, pixel_of, fmap, bind. simpl.
    unfold Exact.truediv. rewrite (Qeq_bool_false_of_neq _ Hd).
    rewrite (exact_to_int_inject _ p); [reflexivity|].
    field. split; assumption.
Qed.

Lemma roundtrip_sampled :
  forallb (roundtrip_check sample_west sample_east sample_width)
          (py_range1 (sample_width + 1)) = true.
Proof. vm_compute. reflexivity. Qed.

Lemma In_py_range1 (n p : Z) : 0 <= p < n -> In p (py_range1 n).
Proof.
  intros H. unfold py_range1. apply in_map_iff.
  exists (Z.to_nat p). split; [lia|]. apply in_seq. lia.
Qed.




(** *** The accepted shapes of [coord] *)

Lemma of_int_raises (z : Z) :
  (exists f, Binary64.of_int z = Ok f) \/
  Binary64.of_int z = Raise OverflowError.
Proof.
  unfold Binary64.of_int.
  destruct (is_infinity _); [right|left; eexists]; reflexivity.
Qed.

Lemma truediv_raises (a b : float) :
  (exists f, Binary64.truediv a b = Ok f) \/
  Binary64.truediv a b = Raise ZeroDivisionError.
Proof.
  unfold Binary64.truediv.
  destruct (PrimFloat.eqb _ _); [right|left; eexists]; reflexivity.
Qed.

Lemma to_int_no_TypeError (x : float) : Binary64.to_int x <> Raise TypeError.
Proof. unfold Binary64.to_int. destruct (Prim2SF x); discriminate. Qed.

Lemma as_float_number (c : pyval float) :
  is_number c = true -> as_float c <> Raise TypeError.
Proof.
  destruct c; try discriminate; intros _; simpl.
  - destruct (of_int_raises (if b then 1 else 0)) as [[f E]|E];
      rewrite E; discriminate.
  - destruct (of_int_raises z) as [[f E]|E]; rewrite E; discriminate.
Qed.

Lemma as_float_not_number (c : pyval float) :
  is_number c = false -> as_float c = Raise TypeError.
Proof. destruct c; try discriminate; reflexivity. Qed.

Lemma pixel_of_number (mn mx : float) (size : Z) (c : pyval float) :
  is_number c = true -> pixel_of mn mx size c <> Raise TypeError.
Proof.
  intros Hc. unfold pixel_of.
  pose proof (as_float_number c Hc) as Ha.
  destruct (as_float c) as [c'|e]; simpl; [|congruence].
  change (float_of_int size) with (Binary64.of_int size).
  destruct (of_int_raises size) as [[s E]|E]; rewrite E; simpl;
    [|discriminate].
  change (float_truediv ?a ?b) with (Binary64.truediv a b).
  match goal with
  | |- context [Binary64.truediv ?a ?b] =>
      destruct (truediv_raises a b) as [[q Eq]|Eq]; rewrite Eq; simpl
  end; [|discriminate].
  apply to_int_no_TypeError.
Qed.

Lemma geocoord_of_number (mn mx : float) (size : Z) (c : pyval float) :
  is_number c = true -> geocoord_of mn mx size c <> Raise TypeError.
Proof.
  intros Hc. unfold geocoord_of.
  pose proof (as_float_number c Hc) as Ha.
  destruct (as_float c) as [c'|e]; simpl; [|congruence].
  change (float_of_int size) with (Binary64.of_int size).
  destruct (of_int_raises size) as [[s E]|E]; rewrite E; simpl;
    [|discriminate].
  change (float_truediv ?a ?b) with (Binary64.truediv a b).
  match goal with
  | |- context [Binary64.truediv ?a ?b] =>
      destruct (truediv_raises a b) as [[q Eq]|Eq]; rewrite Eq; simpl
  end; discriminate.
Qed.

Lemma fmap_no_TypeError {A B : Type} (f : A -> B) (m : result A) :
  m <> Raise TypeError -> fmap f m <> Raise TypeError.
Proof. destruct m; simpl; [discriminate|congruence]. Qed.

(** A comprehension over numbers returns one item per element, or raises
    what an element raised. *)
Lemma comprehension_numbers {A B : Type} (f : pyval float -> result A)
      (wrap : A -> B) (l : list (pyval float)) :
  (forall c, is_number c = true -> f c <> Raise TypeError) ->
  forallb is_number l = true ->
  comprehension (fun c => fmap wrap (f c)) l <> Raise TypeError /\
  forall bs, comprehension (fun c => fmap wrap (f c)) l = Ok bs ->
             exists xs, bs = map wrap xs /\ List.length xs = List.length l.
Proof.
  intros Hf. induction l as [|c l IH]; simpl; intros Hl.
  - split; [discriminate|]. intros bs E. injection E as <-.
    exists []. split; reflexivity.
  - apply andb_prop in Hl. destruct Hl as [Hc Hl].
    specialize (IH Hl). destruct IH as [IH1 IH2].
    specialize (Hf c Hc).
    destruct (f c) as [a|e]; simpl; [|split; [congruence|discriminate]].
    destruct (comprehension (fun c0 => fmap wrap (f c0)) l) as [bs'|e];
      simpl.
    + split; [discriminate|]. intros bs E. injection E as <-.
      destruct (IH2 bs' eq_refl) as [xs [-> Hlen]].
      exists (a :: xs). split; simpl; congruence.
    + split; [congruence|discriminate].
Qed.

(** C6 (as amended): [get_pixel] accepts a [list] or a [float] scalar and
    [get_geocoord] accepts a [list] or an [int] scalar ([bool] included);
    every other value, a tuple or a scalar of the other numeric type among
    them, raises [TypeError].  An accepted scalar and a list of numbers never
    raise [TypeError], and a list of numbers that is transformed gives a
    list of the same length. *)
Theorem coordinate_input_dispatch :
  (forall (coord : pyval float) (mn mx : float) (size : Z),
      (forall l, coord <> PList l) ->
      (get_pixel coord mn mx size = Raise TypeError <->
       forall f, coord <> PFloat f)) /\
  (forall (coord : pyval float) (mn mx : float) (size : Z),
      (forall l, coord <> PList l) ->
      (get_geocoord coord mn mx size = Raise TypeError <->
       (forall z, coord <> PInt z) /\ (forall b, coord <> PBool b))) /\
  (forall (l : list (pyval float)) (mn mx : float) (size : Z),
      forallb is_number l = true ->
      get_pixel (PList l) mn mx size <> Raise TypeError /\
      forall v, get_pixel (PList l) mn mx size = Ok v ->
                exists qs, v = PList (map PInt qs) /\
                           List.length qs = List.length l) /\
  (forall (l : list (pyval float)) (mn mx : float) (size : Z),
      forallb is_number l = true ->
      get_geocoord (PList l) mn mx size <> Raise TypeError /\
      forall v, get_geocoord (PList l) mn mx size = Ok v ->
                exists gs, v = PList (map PFloat gs) /\
                           List.length gs = List.length l).
Proof.
  split; [|split; [|split]].
  - intros coord mn mx size Hl. split.
    + intros E f ->. revert E. apply fmap_no_TypeError.
      now apply pixel_of_number.
    + intros Hf. destruct coord; try reflexivity.
      * now destruct (Hf f).
      * now destruct (Hl l).
  - intros coord mn mx size Hl. split.
    + intros E. split.
      * intros z ->. revert E. apply fmap_no_TypeError.
        now apply geocoord_of_number.
      * intros b ->. revert E. apply fmap_no_TypeError.
        now apply geocoord_of_number.
    + intros [Hz Hb]. destruct coord; try reflexivity.
      * now destruct (Hb b).
      * now destruct (Hz z).
      * now destruct (Hl l).
  - intros l mn mx size Hnum.
    destruct (comprehension_numbers (pixel_of mn mx size) (@PInt float) l
                (pixel_of_number mn mx size) Hnum) as [H1 H2].
    split.
    + simpl. now apply fmap_no_TypeError.
    + intros v. simpl.
      destruct (comprehension _ l) as [bs|e]; simpl; [|discriminate].
      intros E. injection E as <-.
      destruct (H2 bs eq_refl) as [qs [-> Hlen]]. now exists qs.
  - intros l mn mx size Hnum.
    destruct (comprehension_numbers (geocoord_of mn mx size) (@PFloat float) l
                (geocoord_of_number mn mx size) Hnum) as [H1 H2].
    split.
    + simpl. now apply fmap_no_TypeError.
    + intros v. simpl.
      destruct (comprehension _ l) as [bs|e]; simpl; [|discriminate].
      intros E. injection E as <-.
      destruct (H2 bs eq_refl) as [gs [-> Hlen]]. now exists gs.
Qed.

(** C6 (counterexample): an [int] scalar is rejected by [get_pixel] and a
    [float] scalar by [get_geocoord], and so is a tuple of numbers. *)
Lemma scalar_of_other_type_rejected :
  get_pixel (PInt 5) 0%float 1%float 100 = Raise TypeError /\
  get_geocoord (PFloat 5%float) 0%float 1%float 100 = Raise TypeError /\
  get_pixel (PTuple [PFloat 0.5%float]) 0%float 1%float 100
    = Raise TypeError.
Proof. repeat split. Qed.

(** C6 (witness): a tuple is rejected, a list of an [int] and a [float] is
    not. *)
Lemma coordinate_input_dispatch_witness :
  get_pixel (PTuple [PFloat 0.5%float]) 0%float 1%float 100
  = Raise TypeError /\
  get_pixel (PList [PInt 1; PFloat 0.5%float]) 0%float 1%float 100
  <> Raise TypeError.
Proof.
  destruct coordinate_input_dispatch as [Hscalar [_ [Hlist _]]].
  split.
  - apply Hscalar; [intros l|intros f]; discriminate.
  - apply Hlist. reflexivity.
Defined.

(** ** File names *)

Local Open Scope string_scope.

Lemma append_assoc_str (a b c : string) : (a ++ b) ++ c = a ++ (b ++ c).
Proof. induction a as [|x a IH]; simpl; [reflexivity|now rewrite IH]. Qed.

Lemma append_empty_r (a : string) : a ++ "" = a.
Proof. induction a as [|x a IH]; simpl; [reflexivity|now rewrite IH]. Qed.

Lemma append_inv_head (a b c : string) : a ++ b = a ++ c -> b = c.
Proof.
  induction a as [|x a IH]; simpl; intros E; [exact E|].
  injection E as E. now apply IH.
Qed.

Lemma mem_char_cons_false (c d : ascii) (s : string) :
  mem_char c (String d s) = false -> c <> d /\ mem_char c s = false.
Proof.
  simpl. intros H. apply orb_false_elim in H. destruct H as [H1 H2].
  split; [|exact H2]. now apply Ascii.eqb_neq.
Qed.

(** *** Occurrences of a word across a separator *)

Lemma prefix_empty (s : string) : prefix "" s = true.
Proof. now destruct s. Qed.

Lemma prefix_app (w u v : string) :
  prefix w u = true -> prefix w (u ++ v) = true.
Proof.
  revert u. induction w as [|a w IH]; intros u;
    [intros _; apply prefix_empty|].
  destruct u as [|b u]; simpl; [discriminate|].
  destruct (ascii_dec a b); [apply IH|discriminate].
Qed.

(** A word without the character [c] that starts [u ++ c ++ rest] lies
    within [u]. *)
Lemma prefix_app_sep (w u : string) (c : ascii) (rest : string) :
  mem_char c w = false ->
  prefix w (u ++ String c rest) = true -> prefix w u = true.
Proof.
  revert u. induction w as [|a w IH]; intros u Hc H; [apply prefix_empty|].
  apply mem_char_cons_false in Hc. destruct Hc as [Hca Hcw].
  destruct u as [|b u]; simpl in *.
  - destruct (ascii_dec a c); [congruence|discriminate].
  - destruct (ascii_dec a b); [now apply IH|discriminate].
Qed.

Lemma contains_cons (w : string) (c : ascii) (s : string) :
  contains w (String c s) = false ->
  prefix w (String c s) = false /\ contains w s = false.
Proof. simpl. intros H. now apply orb_false_elim in H. Qed.

Lemma contains_app_sep (w a b : string) (c : ascii) :
  w <> "" -> mem_char c w = false ->
  contains w a = false -> contains w b = false ->
  contains w (a ++ String c b) = false.
Proof.
  intros Hw Hc. induction a as [|d a IH]; intros Ha Hb.
  - simpl. rewrite Hb, orb_false_r.
    destruct w as [|x w]; [contradiction|].
    apply mem_char_cons_false in Hc. destruct Hc as [Hcx _].
    simpl. destruct (ascii_dec x c); [congruence|reflexivity].
  - apply contains_cons in Ha. destruct Ha as [Hp Ha].
    change (String d a ++ String c b) with (String d (a ++ String c b)).
    cbn [contains]. rewrite (IH Ha Hb), orb_false_r.
    destruct (prefix w (String d (a ++ String c b))) eqn:E; [|reflexivity].
    change (String d (a ++ String c b)) with (String d a ++ String c b) in E.
    apply prefix_app_sep in E; [congruence|assumption].
Qed.

Lemma contains_without_first (w : string) (x : ascii) (s : string) :
  mem_char x s = false -> contains (String x w) s = false.
Proof.
  induction s as [|c s IH]; intros H; [reflexivity|].
  apply mem_char_cons_false in H. destruct H as [Hx Hs].
  cbn [contains]. rewrite (IH Hs), orb_false_r. simpl.
  destruct (ascii_dec x c); [congruence|reflexivity].
Qed.

(** *** [replace] *)

Lemma replace_from_absent (old new s : string) :
  contains old s = false -> replace_from old new 0 s = s.
Proof.
  induction s as [|c s IH]; intros H; [reflexivity|].
  apply contains_cons in H. destruct H as [Hp Hs].
  cbn [replace_from]. rewrite Hp. now rewrite (IH Hs).
Qed.

(** The directory segment ["images/"] after a prefix [pre] that ends a
    path component (it is empty or ends with the separator) and in front of
    a name without the word. *)
Lemma replace_images_segment_here (name : string) :
  contains "images" name = false ->
  replace "images" "labels" ("images/" ++ name) = "labels/" ++ name.
Proof.
  intros H. unfold replace. simpl.
  now rewrite (replace_from_absent "images" "labels" name H).
Qed.

Lemma replace_images_segment_after (p0 name : string) :
  contains "images" (p0 ++ "/") = false ->
  contains "images" name = false ->
  replace "images" "labels" ((p0 ++ "/") ++ "images/" ++ name)
  = (p0 ++ "/") ++ "labels/" ++ name.
Proof.
  intros Hp Hn. induction p0 as [|c p0 IH].
  - unfold replace. simpl.
    now rewrite (replace_from_absent "images" "labels" name Hn).
  - change ((String c p0 ++ "/")) with (String c (p0 ++ "/")) in *.
    apply contains_cons in Hp. destruct Hp as [Hpre Hp].
    specialize (IH Hp). unfold replace in *.
    change (String c (p0 ++ "/") ++ "images/" ++ name)
      with (String c ((p0 ++ "/") ++ "images/" ++ name)).
    cbn [replace_from].
    destruct (prefix "images" (String c ((p0 ++ "/") ++ "images/" ++ name)))
      eqn:E.
    + rewrite append_assoc_str in E.
      change (String c (p0 ++ "/" ++ "images/" ++ name))
        with (String c p0 ++ String "/" ("images/" ++ name)) in E.
      apply prefix_app_sep in E; [|reflexivity].
      apply (prefix_app _ _ "/") in E.
      change (String c p0 ++ "/") with (String c (p0 ++ "/")) in E.
      congruence.
    + rewrite IH. reflexivity.
Qed.

(** *** Paths *)

Lemma last_char_app (s : string) (c : ascii) (t : string) :
  last_char (s ++ String c t) = last_char (String c t).
Proof.
  induction s as [|d s IH]; [reflexivity|].
  change (String d s ++ String c t) with (String d (s ++ String c t)).
  cbn [last_char]. rewrite IH.
  destruct s; reflexivity.
Qed.

Lemma ends_with_sep_inv (s : string) :
  ends_with_sep s = true -> exists p0, s = p0 ++ "/".
Proof.
  unfold ends_with_sep. induction s as [|c s IH]; [discriminate|].
  destruct s as [|d s].
  - simpl. intros H. apply Ascii.eqb_eq in H. subst c. now exists "".
  - intros H. destruct (IH H) as [p0 E]. exists (String c p0).
    simpl. now rewrite <- E.
Qed.

Lemma append_nonempty (a : string) (c : ascii) (b : string) :
  (a ++ String c b =? "") = false.
Proof. destruct a; reflexivity. Qed.

Lemma prefix_sep_cons (c : ascii) (s : string) :
  c <> "/"%char -> prefix "/" (String c s) = false.
Proof.
  intros Hc. cbn [prefix].
  destruct (ascii_dec "/" c); [congruence|reflexivity].
Qed.

(** [join] under a directory [seg] ("images", "labels") and before a file
    name that is not absolute. *)
Lemma join_segment (dir seg name : string) (c : ascii) (seg' : string) :
  seg = String c seg' -> c <> "/"%char ->
  last_char seg <> Some "/"%char ->
  prefix "/" name = false ->
  os_path.join dir [seg; name]%list = with_sep dir ++ seg ++ "/" ++ name.
Proof.
  intros Hseg Hc Hlast Hname. unfold os_path.join. cbn [fold_left].
  assert (J1 : os_path.join2 dir seg = with_sep dir ++ seg).
  { unfold os_path.join2, with_sep. subst seg.
    rewrite (prefix_sep_cons _ _ Hc).
    destruct (orb _ _); [reflexivity|]. now rewrite append_assoc_str. }
  rewrite J1. unfold os_path.join2. rewrite Hname.
  assert (E1 : (with_sep dir ++ seg =? "") = false)
    by (subst seg; apply append_nonempty).
  assert (E2 : ends_with_sep (with_sep dir ++ seg) = false).
  { unfold ends_with_sep. subst seg. rewrite last_char_app.
    destruct (last_char (String c seg')) as [x|]; [|reflexivity].
    apply Ascii.eqb_neq. congruence. }
  rewrite E1, E2. simpl. now rewrite append_assoc_str.
Qed.

Lemma contains_with_sep (dir : string) :
  contains "images" dir = false -> contains "images" (with_sep dir) = false.
Proof.
  intros H. unfold with_sep. destruct (orb _ _); [exact H|].
  now apply contains_app_sep.
Qed.

Lemma with_sep_shape (dir : string) :
  with_sep dir = "" \/ exists p0, with_sep dir = p0 ++ "/".
Proof.
  unfold with_sep. destruct (dir =? "") eqn:E; simpl.
  - left. now apply String.eqb_eq.
  - destruct (ends_with_sep dir) eqn:E2.
    + right. now apply ends_with_sep_inv.
    + right. now exists dir.
Qed.

(** *** [basename] and [splitext] *)

Lemma rfind_absent (c : ascii) (s : string) :
  mem_char c s = false -> rfind c s = (-1)%Z.
Proof.
  induction s as [|d s IH]; [reflexivity|]. intros H.
  apply orb_false_elim in H. destruct H as [Hd Hs].
  cbn [rfind]. rewrite (IH Hs), Hd. reflexivity.
Qed.

Lemma rfind_present (c : ascii) (s : string) :
  mem_char c s = true -> (0 <= rfind c s)%Z.
Proof.
  induction s as [|d s IH]; [discriminate|]. intros H.
  cbn [rfind]. destruct (mem_char c s) eqn:Hs.
  - specialize (IH eq_refl).
    destruct (0 <=? rfind c s)%Z eqn:E; [lia|]. apply Z.leb_gt in E. lia.
  - rewrite (rfind_absent _ _ Hs). simpl in H. rewrite Hs, orb_false_r in H.
    rewrite H. simpl. lia.
Qed.

Lemma substring_0_length (s : string) : substring 0 (String.length s) s = s.
Proof. induction s as [|c s IH]; simpl; [reflexivity|now rewrite IH]. Qed.

Lemma substring_0_mem (c : ascii) (n : nat) (s : string) :
  mem_char c s = false -> mem_char c (substring 0 n s) = false.
Proof.
  revert n. induction s as [|d s IH]; intros n H.
  - now destruct n.
  - destruct n; [reflexivity|]. apply orb_false_elim in H.
    destruct H as [Hd Hs]. simpl. now rewrite Hd, (IH n Hs).
Qed.

Lemma basename_cons (d : ascii) (s : string) :
  os_path.basename (String d s)
  = if mem_char "/" s then os_path.basename s
    else if Ascii.eqb "/" d then s else String d s.
Proof.
  unfold os_path.basename, str_from. cbn [rfind String.length].
  destruct (mem_char "/" s) eqn:Hs.
  - pose proof (rfind_present _ _ Hs) as Hr.
    destruct (0 <=? rfind "/" s)%Z eqn:E; [|apply Z.leb_gt in E; lia].
    replace (Z.to_nat (rfind "/" s + 1 + 1)%Z)
      with (S (Z.to_nat (rfind "/" s + 1)%Z)) by lia.
    reflexivity.
  - rewrite (rfind_absent _ _ Hs). cbn [Z.leb Z.compare].
    destruct (Ascii.eqb "/" d).
    + change (Z.to_nat (0 + 1)%Z) with 1%nat. cbn [Nat.sub substring].
      rewrite Nat.sub_0_r. apply substring_0_length.
    + change (Z.to_nat (-1 + 1)%Z) with 0%nat. cbn [Nat.sub substring].
      now rewrite substring_0_length.
Qed.

Lemma basename_no_sep (p : string) :
  mem_char "/" (os_path.basename p) = false.
Proof.
  induction p as [|d s IH]; [reflexivity|].
  rewrite basename_cons. destruct (mem_char "/" s) eqn:Hs; [exact IH|].
  destruct (Ascii.eqb "/" d) eqn:Hd; [exact Hs|].
  cbn [mem_char]. now rewrite Hd, Hs.
Qed.

Lemma splitext_stem_no_sep (b : string) :
  mem_char "/" b = false -> mem_char "/" (fst (os_path.splitext b)) = false.
Proof.
  intros H. unfold os_path.splitext. destruct (andb _ _); simpl; [|exact H].
  unfold str_upto. now apply substring_0_mem.
Qed.

(** *** The file name of a tile *)

Lemma string_of_uint_digits (d : Decimal.uint) :
  mem_char "i" (NilEmpty.string_of_uint d) = false.
Proof. induction d; simpl; assumption || reflexivity. Qed.

Lemma str_of_int_no_word (z : Z) : contains "images" (str_of_int z) = false.
Proof.
  apply contains_without_first. unfold str_of_int.
  destruct (Z.to_int z); simpl; apply string_of_uint_digits.
Qed.

Lemma new_filename_shape (self : TanzaniaDataset) (image_filename : string)
      (x y : Z) (suffix : option string) :
  new_filename self image_filename x y suffix
  = fst (os_path.splitext (os_path.basename image_filename))
    ++ "_" ++ tile_tag self x y suffix.
Proof.
  unfold new_filename, tile_tag. cbv zeta. f_equal. f_equal.
  destruct suffix as [sfx|]; repeat rewrite append_assoc_str; reflexivity.
Qed.

Lemma new_filename_relative (self : TanzaniaDataset) (image_filename : string)
      (x y : Z) (suffix : option string) :
  prefix "/" (new_filename self image_filename x y suffix) = false.
Proof.
  rewrite new_filename_shape.
  pose proof (splitext_stem_no_sep _ (basename_no_sep image_filename)) as H.
  destruct (fst (os_path.splitext (os_path.basename image_filename)))
    as [|c s].
  - reflexivity.
  - apply mem_char_cons_false in H. destruct H as [Hc _].
    apply prefix_sep_cons. congruence.
Qed.

Lemma tile_tag_no_word (self : TanzaniaDataset) (x y : Z)
      (suffix : option string) :
  (forall sfx, suffix = Some sfx -> contains "images" sfx = false) ->
  contains "images" (tile_tag self x y suffix) = false.
Proof.
  intros Hs. unfold tile_tag.
  assert (Hw : "images" <> "") by discriminate.
  assert (Hpng : contains "images" "png" = false) by reflexivity.
  assert (Htail : contains "images"
                    (match suffix with
                     | None => ""
                     | Some sfx => "_" ++ sfx
                     end ++ ".png") = false).
  { destruct suffix as [sfx|].
    - change (("_" ++ sfx) ++ ".png") with ("" ++ String "_" (sfx ++ ".png")).
      apply contains_app_sep; try reflexivity; try assumption.
      apply (contains_app_sep _ _ _ _ Hw); try reflexivity. now apply Hs.
    - reflexivity. }
  repeat (apply (contains_app_sep _ _ _ _ Hw);
          [reflexivity|apply str_of_int_no_word|]).
  destruct suffix as [sfx|].
  - change (str_of_int y ++ ("_" ++ sfx) ++ ".png")
      with (str_of_int y ++ String "_" (sfx ++ ".png")).
    apply (contains_app_sep _ _ _ _ Hw); [reflexivity|apply str_of_int_no_word|].
    apply (contains_app_sep _ _ _ _ Hw); try reflexivity. now apply Hs.
  - change (str_of_int y ++ "" ++ ".png")
      with (str_of_int y ++ String "." "png").
    apply (contains_app_sep _ _ _ _ Hw); [reflexivity|apply str_of_int_no_word|].
    reflexivity.
Qed.

Lemma new_filename_no_word (self : TanzaniaDataset) (image_filename : string)
      (x y : Z) (suffix : option string) :
  contains "images"
    (fst (os_path.splitext (os_path.basename image_filename))) = false ->
  (forall sfx, suffix = Some sfx -> contains "images" sfx = false) ->
  contains "images" (new_filename self image_filename x y suffix) = false.
Proof.
  intros Hstem Hs. rewrite new_filename_shape.
  apply contains_app_sep; try reflexivity; try assumption.
  - discriminate.
  - now apply tile_tag_no_word.
Qed.

Lemma replace_images_segment (dir name : string) :
  contains "images" dir = false -> contains "images" name = false ->
  replace "images" "labels" (with_sep dir ++ "images" ++ "/" ++ name)
  = with_sep dir ++ "labels" ++ "/" ++ name.
Proof.
  intros Hd Hn. apply contains_with_sep in Hd.
  destruct (with_sep_shape dir) as [E|[p0 E]]; rewrite E in *.
  - now apply replace_images_segment_here.
  - now apply replace_images_segment_after.
Qed.

(** C9 (as amended): the image path is
    [join(output_dir, "images", <stem>_<size>_<size>_<x>_<y>[_<suffix>].png)],
    where [<stem>] is the base name of the original file without its
    extension, and the label path is the image path with every occurrence of
    ["images"] replaced by ["labels"]; when neither [output_dir], the stem
    nor the suffix contains ["images"], the label path is the same file name
    under the [labels] folder. *)
Theorem label_path_under_labels_folder
        (self : TanzaniaDataset) (image_filename output_dir : string)
        (x y : Z) (suffix : option string) :
  contains "images" output_dir = false ->
  contains "images"
    (fst (os_path.splitext (os_path.basename image_filename))) = false ->
  (forall sfx, suffix = Some sfx -> contains "images" sfx = false) ->
  fn_image (_generate_preprocessed_filenames self image_filename output_dir
              x y suffix)
  = os_path.join output_dir
      ["images";
       (fst (os_path.splitext (os_path.basename image_filename))
        ++ "_" ++ tile_tag self x y suffix)%string]%list /\
  fn_labels (_generate_preprocessed_filenames self image_filename output_dir
               x y suffix)
  = replace "images" "labels"
      (fn_image (_generate_preprocessed_filenames self image_filename
                   output_dir x y suffix)) /\
  fn_labels (_generate_preprocessed_filenames self image_filename output_dir
               x y suffix)
  = os_path.join output_dir
      ["labels";
       (fst (os_path.splitext (os_path.basename image_filename))
        ++ "_" ++ tile_tag self x y suffix)%string]%list.
Proof.
  intros Hdir Hstem Hsfx.
  pose proof (new_filename_relative self image_filename x y suffix) as Hrel.
  pose proof (new_filename_no_word self image_filename x y suffix
                Hstem Hsfx) as Hname.
  unfold _generate_preprocessed_filenames. cbn [fn_image fn_labels].
  rewrite <- new_filename_shape.
  split; [reflexivity|]. split; [reflexivity|].
  rewrite (join_segment output_dir "images" _ "i"%char "mages");
    try reflexivity; try discriminate; try assumption.
  rewrite (join_segment output_dir "labels" _ "l"%char "abels");
    try reflexivity; try discriminate; try assumption.
  now apply replace_images_segment.
Qed.

(** C9 (witness): a tile of [data/images/grid_001.tif] under [out]. *)
Lemma label_path_under_labels_folder_witness :
  fn_image (_generate_preprocessed_filenames (TanzaniaDataset_init 384)
              "data/images/grid_001.tif" "out" 10 20 (Some "nw"))
  = "out/images/grid_001_384_384_10_20_nw.png" /\
  fn_labels (_generate_preprocessed_filenames (TanzaniaDataset_init 384)
               "data/images/grid_001.tif" "out" 10 20 (Some "nw"))
  = "out/labels/grid_001_384_384_10_20_nw.png".
Proof.
  destruct (label_path_under_labels_folder (TanzaniaDataset_init 384)
              "data/images/grid_001.tif" "out" 10 20 (Some "nw"))
    as [Hi [_ Hl]].
  - reflexivity.
  - reflexivity.
  - intros sfx E. injection E as <-. reflexivity.
  - split; [exact Hi|exact Hl].
Defined.

(** C9 (counterexample): the base name [grid_images] contains the word, and
    the label path renames the file as well as the folder. *)
Lemma label_path_renames_basename :
  fn_image (_generate_preprocessed_filenames (TanzaniaDataset_init 384)
              "data/images/grid_images.tif" "out" 10 20 None)
  = "out/images/grid_images_384_384_10_20.png" /\
  fn_labels (_generate_preprocessed_filenames (TanzaniaDataset_init 384)
               "data/images/grid_images.tif" "out" 10 20 None)
  = "out/labels/grid_labels_384_384_10_20.png" /\
  fn_labels (_generate_preprocessed_filenames (TanzaniaDataset_init 384)
               "data/images/grid_images.tif" "out" 10 20 None)
  <> "out/labels/grid_images_384_384_10_20.png".
Proof.
  repeat split. intros H. vm_compute in H. discriminate H.
Qed.

(** ** The mask of a tile *)

Local Open Scope Z_scope.
Local Open Scope list_scope.

Lemma np_zeros_ok (n : Z) :
  0 <= n -> np_zeros n = Ok (repeat (repeat 0 (Z.to_nat n)) (Z.to_nat n)).
Proof.
  intros H. unfold np_zeros.
  destruct (n <? 0) eqn:E; [apply Z.ltb_lt in E; lia|reflexivity].
Qed.

Lemma zeros_shape (n : nat) : mask_shape n (repeat (repeat 0 n) n).
Proof.
  split; [apply repeat_length|].
  apply Forall_forall. intros row Hr. apply repeat_spec in Hr. subst row.
  apply repeat_length.
Qed.

Lemma zeros_values (P : Z -> Prop) (n k : nat) :
  P 0 -> mask_values P (repeat (repeat 0 n) k).
Proof.
  intros H0. apply Forall_forall. intros row Hr. apply repeat_spec in Hr.
  subst row. apply Forall_forall. intros v Hv. apply repeat_spec in Hv.
  now subst v.
Qed.

Lemma mapi_from_length {A B : Type} (f : Z -> A -> B) (i : Z) (l : list A) :
  List.length (mapi_from f i l) = List.length l.
Proof.
  revert i. induction l as [|a l IH]; intros i; simpl;
    [reflexivity|now rewrite IH].
Qed.

Lemma mapi_from_Forall {A B : Type} (P : A -> Prop) (Q : B -> Prop)
      (f : Z -> A -> B) (i : Z) (l : list A) :
  (forall j a, P a -> Q (f j a)) -> Forall P l -> Forall Q (mapi_from f i l).
Proof.
  intros Hf H. revert i. induction H as [|a l Ha Hl IH]; intros i; simpl;
    constructor; auto.
Qed.

Lemma label_id_of_inv (self : TanzaniaDataset) (name : string) :
  (exists id, label_id_of self name = Ok id /\ In id (label_ids self) /\
              In name (label_names self)) \/
  (label_id_of self name = Raise IndexError /\ ~ In name (label_names self)).
Proof.
  unfold label_id_of, label_ids, label_names.
  destruct (filter _ (labels self)) as [|l ls] eqn:E.
  - right. split; [reflexivity|]. intros Hin. apply in_map_iff in Hin.
    destruct Hin as [l [Hn Hl]].
    assert (Hf : In l (filter (fun l0 => String.eqb (label_name l0) name)
                              (labels self))).
    { apply filter_In. split; [exact Hl|]. now apply String.eqb_eq. }
    rewrite E in Hf. exact Hf.
  - left. exists (label_id l). split; [reflexivity|].
    assert (Hf : In l (filter (fun l0 => String.eqb (label_name l0) name)
                              (labels self)))
      by (rewrite E; now left).
    apply filter_In in Hf. destruct Hf as [Hl Hn].
    apply String.eqb_eq in Hn.
    split; apply in_map_iff; exists l; split; auto.
Qed.

Section MaskProperties.

Variable polygon_covers : list (Z * Z) -> Z -> Z -> bool.

Lemma fillPoly_shape (n : nat) (m : mask) (points : list (Z * Z)) (color : Z) :
  mask_shape n m -> mask_shape n (cv2_fillPoly polygon_covers m points color).
Proof.
  intros [Hl Hr]. unfold cv2_fillPoly. split.
  - now rewrite mapi_from_length.
  - eapply mapi_from_Forall; [|exact Hr].
    intros j row Hrow. cbv beta. now rewrite mapi_from_length.
Qed.

Lemma fillPoly_values (P : Z -> Prop) (m : mask) (points : list (Z * Z))
      (color : Z) :
  P (saturate_uint8 color) -> mask_values P m ->
  mask_values P (cv2_fillPoly polygon_covers m points color).
Proof.
  intros Hc Hm. unfold cv2_fillPoly, mask_values.
  eapply mapi_from_Forall; [|exact Hm].
  intros j row Hrow. cbv beta.
  eapply mapi_from_Forall; [|exact Hrow].
  intros k v Hv. cbv beta. now destruct (polygon_covers points j k).
Qed.

(** What the loop over the rows keeps true of the mask. *)
Lemma fill_buildings_invariant (self : TanzaniaDataset) (P : Z -> Prop)
      (n : nat) (features : image_features) (min_x min_y : Z)
      (rows : list building) :
  (forall id, In id (label_ids self) -> P (saturate_uint8 id)) ->
  forall m m',
    mask_shape n m -> mask_values P m ->
    fill_buildings polygon_covers self m rows features min_x min_y = Ok m' ->
    mask_shape n m' /\ mask_values P m'.
Proof.
  intros Hids. induction rows as [|row rows IH]; intros m m' Hs Hv; simpl.
  - intros E. injection E as <-. now split.
  - destruct (extract_points_from_polygon _ _ _ _) as [points|e]; simpl;
      [|discriminate].
    destruct (label_id_of_inv self (lower (condition row)))
      as [[id [E [Hid _]]]|[E _]]; rewrite E; simpl; [|discriminate].
    apply IH.
    + now apply fillPoly_shape.
    + apply fillPoly_values; auto.
Qed.

(** The loop returns when every row converts and names a label. *)
Lemma fill_buildings_returns (self : TanzaniaDataset)
      (features : image_features) (min_x min_y : Z) (rows : list building) :
  Forall (fun b => In (lower (condition b)) (label_names self)) rows ->
  Forall (convertible features min_x min_y) rows ->
  forall m, exists m',
    fill_buildings polygon_covers self m rows features min_x min_y = Ok m'.
Proof.
  intros Hn Hc. induction rows as [|row rows IH]; intros m; simpl.
  - now exists m.
  - inversion Hn as [|? ? Hrow Hrows]; subst.
    inversion Hc as [|? ? [points Hp] Hcs]; subst.
    rewrite Hp. simpl.
    destruct (label_id_of_inv self (lower (condition row)))
      as [[id [E _]]|[_ Hno]]; [|contradiction].
    rewrite E. simpl. now apply IH.
Qed.

(** The loop raises when a row names no label. *)
Lemma fill_buildings_raises (self : TanzaniaDataset)
      (features : image_features) (min_x min_y : Z) (rows : list building) :
  Exists (fun b => ~ In (lower (condition b)) (label_names self)) rows ->
  forall m,
    (exists e,
        fill_buildings polygon_covers self m rows features min_x min_y
        = Raise e) /\
    (Forall (convertible features min_x min_y) rows ->
     fill_buildings polygon_covers self m rows features min_x min_y
     = Raise IndexError).
Proof.
  induction rows as [|row rows IH]; intros Hbad m.
  - inversion Hbad.
  - simpl.
    destruct (extract_points_from_polygon (geometry row) features min_x min_y)
      as [points|e] eqn:Hp; simpl.
    + destruct (label_id_of_inv self (lower (condition row)))
        as [[id [E [_ Hin]]]|[E _]]; rewrite E; simpl.
      * assert (Hrest : Exists (fun b => ~ In (lower (condition b))
                                            (label_names self)) rows).
        { inversion Hbad as [? ? Hrow|? ? Hrows]; subst;
            [contradiction|assumption]. }
        destruct (IH Hrest (cv2_fillPoly polygon_covers m points id))
          as [H1 H2].
        split; [exact H1|]. intros Hc. apply H2.
        now inversion Hc.
      * split; [now exists IndexError|reflexivity].
    + split; [now exists e|]. intros Hc.
      inversion Hc as [|? ? [points Hp'] _]; subst. congruence.
Qed.

(** C8: on the registry of the Tanzania dataset, when every row names a
    label, a mask returned by [load_mask] has [image_size] rows of
    [image_size] cells, each a label id of the registry (0, 1, 2 or 3); with
    a tile size [0 <= size], [load_mask] returns when the polygons convert to
    pixels, and for an empty set of buildings it returns the mask of
    zeros. *)
Theorem load_mask_label_ids_valid
        (size : Z) (buildings : list building) (features : image_features)
        (min_x min_y : Z) :
  Forall (fun b => In (lower (condition b))
                      (label_names (TanzaniaDataset_init size))) buildings ->
  (forall m,
      load_mask polygon_covers (TanzaniaDataset_init size) buildings features
                min_x min_y = Ok m ->
      mask_shape (Z.to_nat size) m /\
      mask_values (fun v => In v (label_ids (TanzaniaDataset_init size))) m /\
      mask_values (fun v => 0 <= v <= 3) m) /\
  (0 <= size ->
   Forall (convertible features min_x min_y) buildings ->
   exists m,
     load_mask polygon_covers (TanzaniaDataset_init size) buildings features
               min_x min_y = Ok m) /\
  (0 <= size ->
   buildings = [] ->
   load_mask polygon_covers (TanzaniaDataset_init size) buildings features
             min_x min_y
   = Ok (repeat (repeat 0 (Z.to_nat size)) (Z.to_nat size))).
Proof.
  intros Hnames. unfold load_mask.
  change (image_size (TanzaniaDataset_init size)) with size.
  assert (Hids : forall id, In id (label_ids (TanzaniaDataset_init size)) ->
                            In (saturate_uint8 id)
                               (label_ids (TanzaniaDataset_init size)) /\
                            0 <= saturate_uint8 id <= 3).
  { intros id Hid. cbn in Hid.
    destruct Hid as [<-|[<-|[<-|[<-|[]]]]];
      (split; [cbn; auto 10|cbn; lia]). }
  split; [|split].
  - intros m. unfold np_zeros.
    destruct (size <? 0); cbn [bind]; [discriminate|].
    destruct (Z.of_nat (List.length buildings) =? 0).
    + intros E. injection E as <-.
      split; [apply zeros_shape|].
      split; apply zeros_values; [cbn; auto|lia].
    + intros E.
      assert (H0 : In 0 (label_ids (TanzaniaDataset_init size)) /\
                   0 <= 0 <= 3) by (split; [cbn; auto|lia]).
      destruct (fill_buildings_invariant (TanzaniaDataset_init size)
                  (fun v => In v (label_ids (TanzaniaDataset_init size)) /\
                            0 <= v <= 3)
                  (Z.to_nat size) features min_x min_y buildings Hids
                  _ m (zeros_shape _)
                  (zeros_values _ _ _ H0) E)
        as [Hs Hv].
      split; [exact Hs|].
      split; apply Forall_forall; intros row Hrow;
        apply Forall_forall; intros v Hin;
        (eapply Forall_forall in Hv; [|exact Hrow]);
        (eapply Forall_forall in Hv; [|exact Hin]); tauto.
  - intros Hsize Hconv. rewrite (np_zeros_ok size Hsize). cbn [bind].
    destruct (Z.of_nat (List.length buildings) =? 0).
    + eexists. reflexivity.
    + now apply fill_buildings_returns.
  - intros Hsize ->. rewrite (np_zeros_ok size Hsize). reflexivity.
Qed.


End MaskProperties.

(** Goals over the rows of a concrete table, one row at a time. *)
Ltac each_row :=
  apply Forall_forall;
  let b := fresh "b" in
  let Hb := fresh "Hb" in
  intros b Hb; vm_compute in Hb;
  repeat (destruct Hb as [Hb|Hb]; [subst b|]); [..|contradiction].

(** C8 (witness): the two buildings of the sample label file, on a tile of
    10 x 10 pixels at (5, 5). *)
Lemma load_mask_label_ids_valid_witness :
  exists m,
    load_mask Demo.box_covers (TanzaniaDataset_init 10) Demo.buildings
              Demo.features_100 5 5 = Ok m /\
    mask_shape 10 m /\ mask_values (fun v => 0 <= v <= 3) m.
Proof.
  destruct (load_mask_label_ids_valid Demo.box_covers 10 Demo.buildings
              Demo.features_100 5 5) as [Hvalid [Hreturns _]].
  - each_row; vm_compute; auto 10.
  - destruct Hreturns as [m E].
    + lia.
    + each_row; eexists; vm_compute; reflexivity.
    + exists m. split; [exact E|].
      destruct (Hvalid m E) as [Hs [_ Hv]]. split; assumption.
Defined.


(** ** Exhaustive tiling *)

Lemma py_range_from_0 (stop step : Z) :
  0 < step -> py_range 0 stop step = Ok (multiples stop step).
Proof.
  intros H. unfold py_range, multiples.
  destruct (step =? 0) eqn:E; [apply Z.eqb_eq in E; lia|].
  destruct (0 <? step) eqn:E2; [|apply Z.ltb_ge in E2; lia].
  rewrite Z.sub_0_r. reflexivity.
Qed.

Lemma In_multiples (stop step x : Z) :
  0 < step ->
  In x (multiples stop step) <-> 0 <= x < stop /\ x mod step = 0.
Proof.
  intros Hs. unfold multiples. rewrite in_map_iff. split.
  - intros [i [<- Hi]]. apply in_seq in Hi.
    assert (Hq : Z.of_nat i < (stop + step - 1) / step) by lia.
    pose proof (Z.mul_div_le (stop + step - 1) step Hs) as Hle.
    split; [|now apply Z.mod_mul; lia]. nia.
  - intros [[H0 Hlt] Hm]. exists (Z.to_nat (x / step)).
    pose proof (Z.div_mod x step ltac:(lia)) as Hx. rewrite Hm in Hx.
    pose proof (Z.div_pos x step H0 Hs) as Hq.
    split; [rewrite Z2Nat.id by assumption; lia|].
    apply in_seq. split; [lia|]. simpl.
    apply Z2Nat.inj_lt; [assumption| |].
    + apply Z.div_pos; lia.
    + assert (Hd : x / step + 1 <= (stop + step - 1) / step).
      { replace (x / step + 1) with ((x + 1 * step) / step)
          by (rewrite Z.div_add by lia; reflexivity).
        apply Z.div_le_mono; lia. }
      lia.
Qed.

Lemma In_grid (w h step x y : Z) :
  0 < step ->
  In (x, y) (grid w h step) <->
  (0 <= x < w /\ x mod step = 0) /\ (0 <= y < h /\ y mod step = 0).
Proof.
  intros Hs. unfold grid. rewrite in_flat_map. split.
  - intros [x' [Hx Hy]]. apply in_map_iff in Hy.
    destruct Hy as [y' [E Hy]]. injection E as -> ->.
    split; now apply (In_multiples _ step).
  - intros [Hx Hy]. exists x. split; [now apply In_multiples|].
    apply in_map_iff. exists y. split; [reflexivity|now apply In_multiples].
Qed.

Section InferenceProperties.

Variable gdal_Open : string -> raster.
Variable gdal_Translate : raster -> Z -> Z -> Z -> Z -> image.
Variable label_dict : Type.

Local Abbreviation inference_record' := (inference_record label_dict).
Local Abbreviation inference_file' :=
  (inference_file gdal_Open gdal_Translate).

Lemma inference_column_spec (self : TanzaniaDataset) (x : Z) (ys : list Z)
      (image_filename output_dir : string)
      (acc : list (tile_record label_dict) * disk) :
  inference_column gdal_Translate label_dict self x ys image_filename
                   output_dir (gdal_Open image_filename) acc
  = (fst acc ++ map (fun y => inference_record' self image_filename
                                output_dir (x, y)) ys,
     snd acc ++ map (fun y => inference_file' self image_filename
                                output_dir (x, y)) ys).
Proof.
  revert acc. induction ys as [|y ys IH]; intros [records d]; simpl.
  - now rewrite !app_nil_r.
  - unfold _preprocess_tile, save. rewrite IH. simpl.
    rewrite <- !app_assoc. reflexivity.
Qed.

Lemma inference_rows_spec (self : TanzaniaDataset) (xs : list Z)
      (image_filename output_dir : string) (h : Z)
      (acc : list (tile_record label_dict) * disk) :
  0 < image_size self ->
  inference_rows gdal_Translate label_dict self xs image_filename output_dir
                 (gdal_Open image_filename) h acc
  = Ok (fst acc
        ++ map (inference_record' self image_filename output_dir)
               (flat_map (fun x => map (fun y => (x, y))
                                       (multiples h (image_size self))) xs),
        snd acc
        ++ map (inference_file' self image_filename output_dir)
               (flat_map (fun x => map (fun y => (x, y))
                                       (multiples h (image_size self))) xs)).
Proof.
  intros Hs. revert acc. induction xs as [|x xs IH]; intros acc; simpl.
  - rewrite !app_nil_r. now destruct acc.
  - rewrite (py_range_from_0 _ _ Hs). simpl.
    rewrite IH, inference_column_spec. simpl.
    rewrite !map_app, !map_map, <- !app_assoc. reflexivity.
Qed.

(** C7: with a positive tile size, exhaustive tiling returns one record per
    cell of the grid, columns first, the origins being the pairs of
    multiples of the tile size inside the raster; a record carries no label
    and the tile of each cell is written once; on a raster of 100 x 100
    pixels and tiles of 50 the origins are (0,0), (0,50), (50,0), (50,50). *)
Theorem inference_grid
        (self : TanzaniaDataset) (image_filename output_dir : string)
        (d : disk) :
  0 < image_size self ->
  _preprocess_for_inference gdal_Open gdal_Translate label_dict self
                            image_filename output_dir d
  = Ok (map (inference_record' self image_filename output_dir)
            (grid (RasterXSize (gdal_Open image_filename))
                  (RasterYSize (gdal_Open image_filename))
                  (image_size self)),
        d ++ map (inference_file' self image_filename output_dir)
                 (grid (RasterXSize (gdal_Open image_filename))
                       (RasterYSize (gdal_Open image_filename))
                       (image_size self))) /\
  (forall x y,
      In (x, y) (grid (RasterXSize (gdal_Open image_filename))
                      (RasterYSize (gdal_Open image_filename))
                      (image_size self)) <->
      (0 <= x < RasterXSize (gdal_Open image_filename)
       /\ x mod image_size self = 0) /\
      (0 <= y < RasterYSize (gdal_Open image_filename)
       /\ y mod image_size self = 0)) /\
  (forall xy,
      label_filename (inference_record' self image_filename output_dir xy)
      = None /\
      tile_labels (inference_record' self image_filename output_dir xy)
      = None) /\
  (RasterXSize (gdal_Open image_filename) = 100 ->
   RasterYSize (gdal_Open image_filename) = 100 ->
   image_size self = 50 ->
   grid (RasterXSize (gdal_Open image_filename))
        (RasterYSize (gdal_Open image_filename)) (image_size self)
   = [(0, 0); (0, 50); (50, 0); (50, 50)]).
Proof.
  intros Hs. split; [|split; [|split]].
  - unfold _preprocess_for_inference. cbv zeta.
    rewrite (py_range_from_0 _ _ Hs). cbn [bind].
    now rewrite inference_rows_spec.
  - intros x y. now apply In_grid.
  - intros xy. split; reflexivity.
  - intros -> -> ->. reflexivity.
Qed.

End InferenceProperties.

(** C7 (witness): the sample raster of 100 x 100 pixels in tiles of 50. *)
Lemma inference_grid_witness :
  fmap (fun out => map (fun r => image_filename r) (fst out))
       (_preprocess_for_inference Demo.open_raster Demo.translate
          (list (Z * bool)) (TanzaniaDataset_init 50)
          "data/images/grid_001.tif" "out" [])
  = Ok ["out/images/grid_001_50_50_0_0.png";
        "out/images/grid_001_50_50_0_50.png";
        "out/images/grid_001_50_50_50_0.png";
        "out/images/grid_001_50_50_50_50.png"]%string.
Proof.
  destruct (inference_grid Demo.open_raster Demo.translate (list (Z * bool))
              (TanzaniaDataset_init 50) "data/images/grid_001.tif" "out" [])
    as [E [_ [_ G]]].
  - simpl. lia.
  - rewrite E, G; reflexivity.
Defined.

(** ** Random sampling *)

(** The image paths of a tile differ with the orientation suffix. *)
Lemma fn_image_suffix (self : TanzaniaDataset)
      (image_filename output_dir : string) (x y : Z) :
  exists pre,
    forall sfx,
      fn_image (_generate_preprocessed_filenames self image_filename
                  output_dir x y (Some sfx))
      = (pre ++ sfx ++ ".png")%string.
Proof.
  exists (with_sep output_dir ++ "images" ++ "/"
          ++ fst (os_path.splitext (os_path.basename image_filename))
          ++ "_" ++ str_of_int (image_size self) ++ "_"
          ++ str_of_int (image_size self) ++ "_"
          ++ str_of_int x ++ "_" ++ str_of_int y ++ "_")%string.
  intros sfx. unfold _generate_preprocessed_filenames. cbn [fn_image].
  rewrite (join_segment output_dir "images" _ "i"%char "mages");
    try reflexivity; try discriminate;
    [|apply new_filename_relative].
  rewrite new_filename_shape. unfold tile_tag.
  repeat rewrite append_assoc_str. reflexivity.
Qed.

Lemma fn_image_suffix_distinct (self : TanzaniaDataset)
      (image_filename output_dir : string) (x y : Z) :
  NoDup (map (fun sfx =>
                fn_image (_generate_preprocessed_filenames self image_filename
                            output_dir x y (Some sfx)))
             ["nw"; "ne"; "sw"; "se"]%string).
Proof.
  destruct (fn_image_suffix self image_filename output_dir x y) as [pre E].
  cbn [map]. rewrite !E.
  repeat constructor; cbn [In]; intros H;
    repeat (destruct H as [H|H]; [apply append_inv_head in H; discriminate|]);
    exact H.
Qed.

Lemma flip_left_right_involutive (img : image) :
  PIL_FLIP_LEFT_RIGHT (PIL_FLIP_LEFT_RIGHT img) = img.
Proof.
  unfold PIL_FLIP_LEFT_RIGHT. rewrite map_map.
  rewrite <- (map_id img) at 2. apply map_ext. intros row. apply rev_involutive.
Qed.

Lemma flip_top_bottom_involutive (img : image) :
  PIL_FLIP_TOP_BOTTOM (PIL_FLIP_TOP_BOTTOM img) = img.
Proof. apply rev_involutive. Qed.

Lemma flips_commute (img : image) :
  PIL_FLIP_LEFT_RIGHT (PIL_FLIP_TOP_BOTTOM img)
  = PIL_FLIP_TOP_BOTTOM (PIL_FLIP_LEFT_RIGHT img).
Proof. unfold PIL_FLIP_LEFT_RIGHT, PIL_FLIP_TOP_BOTTOM. apply map_rev. Qed.

(** The quota of empty tiles for a target of ten: one tile. *)
Lemma under_empty_quota_10 (e : Z) : under_empty_quota 10 e = Ok (e <? 1).
Proof.
  unfold under_empty_quota.
  change (float_of_int 10) with (Binary64.of_int 10).
  replace (Binary64.of_int 10) with (Ok 10%float) by (vm_compute; reflexivity).
  cbn [bind]. unfold Binary64.int_lt.
  replace (Prim2SF (PrimFloat.mul one_tenth 10))
    with (S754_finite false 4503599627370496 (-52))
    by (vm_compute; reflexivity).
  f_equal. rewrite Z.shiftl_mul_pow2 by lia.
  destruct (e <? 1) eqn:E.
  - apply Z.ltb_lt in E. apply Z.ltb_lt. lia.
  - apply Z.ltb_ge in E. apply Z.ltb_ge. lia.
Qed.

(** With a target that is no multiple of ten the quota is the threshold
    [0.1 * nb_images] itself: for fifteen tiles, [1.5], hence two empty
    tiles. *)
Lemma under_empty_quota_15 (e : Z) : under_empty_quota 15 e = Ok (e <? 2).
Proof.
  unfold under_empty_quota.
  change (float_of_int 15) with (Binary64.of_int 15).
  replace (Binary64.of_int 15) with (Ok 15%float) by (vm_compute; reflexivity).
  cbn [bind]. unfold Binary64.int_lt.
  replace (Prim2SF (PrimFloat.mul one_tenth 15))
    with (S754_finite false 6755399441055744 (-52))
    by (vm_compute; reflexivity).
  f_equal. rewrite Z.shiftl_mul_pow2 by lia.
  destruct (e <? 2) eqn:E.
  - apply Z.ltb_lt in E. apply Z.ltb_lt. lia.
  - apply Z.ltb_ge in E. apply Z.ltb_ge. lia.
Qed.

Section SamplingProperties.

Variable polygon_covers : list (Z * Z) -> Z -> Z -> bool.
Variable clip_labels : Z -> polygon -> list building -> list building.
Variable parse_srid : string -> result Z.
Variable label_dict : Type.
Variable build_labels : mask -> list Z -> string -> label_dict.
Variable build_image_from_config : mask -> list label -> image.
Variable rng : Type.
Variable randint_draw : rng -> Z -> Z -> Z * rng.

(** The image path of a record (the name is taken by a parameter below). *)
Local Abbreviation image_path := (@image_filename label_dict).

Variable self : TanzaniaDataset.
Variable image_filename : string.
Variable output_dir : string.
Variable nb_images : Z.
Variable r : raster.
Variable table : list building.

Local Abbreviation state := (loop_state label_dict rng).
Local Abbreviation draw := (tile_draw label_dict rng).
Local Abbreviation draw_tile' :=
  (draw_tile polygon_covers clip_labels parse_srid label_dict build_labels
             build_image_from_config rng randint_draw self r table).
Local Abbreviation accept_tile' :=
  (accept_tile label_dict rng self image_filename output_dir nb_images).
Local Abbreviation loop_body' :=
  (loop_body polygon_covers clip_labels parse_srid label_dict build_labels
             build_image_from_config rng randint_draw self image_filename
             output_dir nb_images r table).
Local Abbreviation loop_guard' := (loop_guard label_dict rng nb_images).
Local Abbreviation while_loop' :=
  (while_loop polygon_covers clip_labels parse_srid label_dict build_labels
              build_image_from_config rng randint_draw self image_filename
              output_dir nb_images r table).
Local Abbreviation loop_runs' :=
  (loop_runs polygon_covers clip_labels parse_srid label_dict build_labels
             build_image_from_config rng randint_draw self image_filename
             output_dir nb_images r table).
Local Abbreviation final_state' := (final_state label_dict rng).
Local Abbreviation initial_state' := (initial_state label_dict rng).
Local Abbreviation record_of' t :=
  (record_of label_dict self image_filename output_dir
             (draw_x _ _ t) (draw_y _ _ t) (draw_label_dict _ _ t)).
Local Abbreviation files_of' t :=
  (files_of self image_filename output_dir (draw_x _ _ t) (draw_y _ _ t)).

Lemma serialize_four_spec (t : draw) (d : disk) :
  serialize_four label_dict rng self image_filename output_dir t d
  = (map (record_of' t) ["nw"; "ne"; "sw"; "se"]%string,
     d ++ files_of' t "nw" (draw_tile_image _ _ t) (draw_labelled_image _ _ t)
       ++ files_of' t "ne" (PIL_FLIP_LEFT_RIGHT (draw_tile_image _ _ t))
                    (PIL_FLIP_LEFT_RIGHT (draw_labelled_image _ _ t))
       ++ files_of' t "sw" (PIL_FLIP_TOP_BOTTOM (draw_tile_image _ _ t))
                    (PIL_FLIP_TOP_BOTTOM (draw_labelled_image _ _ t))
       ++ files_of' t "se"
            (PIL_FLIP_LEFT_RIGHT (PIL_FLIP_TOP_BOTTOM (draw_tile_image _ _ t)))
            (PIL_FLIP_LEFT_RIGHT
               (PIL_FLIP_TOP_BOTTOM (draw_labelled_image _ _ t)))).
Proof.
  unfold serialize_four, _serialize, save, files_of, record_of. cbn.
  rewrite <- !app_assoc. reflexivity.
Qed.

(** What a turn changes, by cases on the tile. *)
Lemma loop_body_cases (st st' : state) :
  loop_body' st = Ok st' ->
  exists t,
    draw_tile' st = Ok t /\
    nb_attempts _ _ st' = nb_attempts _ _ st + 1 /\
    ((draw_tile_items _ _ t <> [] /\
      image_counter _ _ st' = image_counter _ _ st + 4 /\
      empty_image_counter _ _ st' = empty_image_counter _ _ st /\
      result_dicts _ _ st'
      = result_dicts _ _ st
        ++ map (record_of' t) ["nw"; "ne"; "sw"; "se"]%string) \/
     (draw_tile_items _ _ t = [] /\
      under_empty_quota nb_images (empty_image_counter _ _ st) = Ok true /\
      image_counter _ _ st' = image_counter _ _ st + 1 /\
      empty_image_counter _ _ st' = empty_image_counter _ _ st + 1 /\
      result_dicts _ _ st' = result_dicts _ _ st ++ [record_of' t "nw"]) \/
     (draw_tile_items _ _ t = [] /\
      under_empty_quota nb_images (empty_image_counter _ _ st) = Ok false /\
      image_counter _ _ st' = image_counter _ _ st /\
      empty_image_counter _ _ st' = empty_image_counter _ _ st /\
      result_dicts _ _ st' = result_dicts _ _ st)).
Proof.
  unfold loop_body. destruct (draw_tile' st) as [t|e]; [|discriminate].
  cbn [bind]. unfold accept_tile.
  destruct (draw_tile_items _ _ t) as [|b bs] eqn:Hitems.
  - cbn [List.length Z.of_nat Z.ltb Z.compare].
    destruct (under_empty_quota nb_images (empty_image_counter _ _ st))
      as [[|]|e]; cbn [bind]; [| |discriminate].
    + unfold _serialize. intros E. injection E as <-. exists t.
      cbn. split; [reflexivity|]. split; [reflexivity|].
      right. left. repeat split. exact Hitems.
    + intros E. injection E as <-. exists t.
      cbn. split; [reflexivity|]. split; [reflexivity|].
      right. right. repeat split. exact Hitems.
  - replace (0 <? Z.of_nat (List.length (b :: bs))) with true
      by (symmetry; apply Z.ltb_lt; simpl List.length; lia).
    rewrite serialize_four_spec. cbn [bind].
    intros E. injection E as <-. exists t.
    cbn. split; [reflexivity|]. split; [reflexivity|].
    left. split; [rewrite Hitems; discriminate|]. repeat split. lia.
Qed.

Lemma loop_body_attempts (st st' : state) :
  loop_body' st = Ok st' -> nb_attempts _ _ st' = nb_attempts _ _ st + 1.
Proof.
  intros E. destruct (loop_body_cases st st' E) as [t [_ [H _]]]. exact H.
Qed.

Lemma loop_guard_spec (st : state) :
  loop_guard' st = true <->
  image_counter _ _ st < nb_images /\ nb_attempts _ _ st < 2 * nb_images.
Proof.
  unfold loop_guard. rewrite andb_true_iff, !Z.ltb_lt. reflexivity.
Qed.

(** The loop ends within the turns its budget leaves. *)
Lemma loop_terminates_from (m : nat) :
  forall st : state,
    2 * nb_images - nb_attempts _ _ st <= Z.of_nat m ->
    exists k o, loop_runs' k st o /\ (k <= m)%nat.
Proof.
  induction m as [|m IH]; intros st Hm.
  - exists 0%nat, (Finished _ _ st). split; [|lia].
    apply runs_exit. destruct (loop_guard' st) eqn:G; [|reflexivity].
    apply loop_guard_spec in G. lia.
  - destruct (loop_guard' st) eqn:G.
    + destruct (loop_body' st) as [st'|e] eqn:B.
      * pose proof (loop_body_attempts st st' B) as Ha.
        destruct (IH st') as [k [o [Hr Hk]]]; [lia|].
        exists (S k), o. split; [|lia].
        now apply runs_turn with (st' := st').
      * exists 1%nat, (Raised _ _ e st). split; [|lia].
        now apply runs_raise.
    + exists 0%nat, (Finished _ _ st). split; [|lia]. now apply runs_exit.
Qed.

Lemma loop_runs_while (k : nat) (st : state) (o : outcome label_dict rng) :
  loop_runs' k st o ->
  forall fuel, (k < fuel)%nat -> while_loop' fuel st = Some o.
Proof.
  induction 1 as [st G|st e G B|st st' k o G B Hr IH]; intros fuel Hf;
    (destruct fuel as [|fuel]; [lia|]); cbn [while_loop]; rewrite G.
  - reflexivity.
  - now rewrite B.
  - rewrite B. apply IH. lia.
Qed.

Lemma while_loop_runs (fuel : nat) :
  forall (st : state) (o : outcome label_dict rng),
    while_loop' fuel st = Some o -> exists k, loop_runs' k st o.
Proof.
  induction fuel as [|fuel IH]; intros st o; [discriminate|].
  cbn [while_loop]. destruct (loop_guard' st) eqn:G.
  - destruct (loop_body' st) as [st'|e] eqn:B.
    + intros E. destruct (IH st' o E) as [k Hr].
      exists (S k). now apply runs_turn with (st' := st').
    + intros E. injection E as <-. exists 1%nat. now apply runs_raise.
  - intros E. injection E as <-. exists 0%nat. now apply runs_exit.
Qed.

(** A property of the state that every turn keeps holds when the loop
    ends, and a loop that ends normally ends on a false guard. *)
Lemma loop_runs_invariant (P : state -> Prop) :
  (forall st st', loop_guard' st = true -> loop_body' st = Ok st' ->
                  P st -> P st') ->
  forall k st o,
    loop_runs' k st o -> P st ->
    P (final_state' o) /\
    (forall st', o = Finished _ _ st' -> loop_guard' st' = false).
Proof.
  intros Hstep k st o Hr.
  induction Hr as [st G|st e G B|st st' k o G B Hr IH]; intros HP.
  - split; [exact HP|]. intros st' E. injection E as <-. exact G.
  - split; [exact HP|]. intros st' E. discriminate.
  - apply IH. now apply (Hstep st st').
Qed.

(** The clipped labels of a drawn tile are what the overlay returned. *)
Lemma draw_tile_items_clipped (st : state) (t : draw) :
  draw_tile' st = Ok t ->
  exists s a, draw_tile_items _ _ t = clip_labels s a table.
Proof.
  unfold draw_tile. cbv zeta.
  repeat match goal with
         | |- context [bind ?m _] =>
             let E := fresh "E" in
             destruct m eqn:E; cbn [bind]; try discriminate
         end.
  intros Et. injection Et as <-. cbn [draw_tile_items].
  match goal with
  | E : extract_tile_items _ _ _ _ _ _ _ = Ok _ |- _ =>
      unfold extract_tile_items in E;
      destruct (get_tile_footprint _ _ _ _ _) as [area|];
      [cbn [bind] in E; injection E as <-|discriminate]
  end.
  eauto.
Qed.

(** C3: the loop goes on only while [image_counter < nb_images] and
    [nb_attempts < 2 * nb_images]; a turn that completes adds exactly one to
    [nb_attempts], whatever it does with the tile; from the initial state
    the loop ends after entering its body at most [2 * nb_images] times. *)
Theorem sampling_loop_terminates (g : rng) (d : disk) :
  (forall st,
      loop_guard' st = true <->
      image_counter _ _ st < nb_images /\
      nb_attempts _ _ st < 2 * nb_images) /\
  (forall st st',
      loop_body' st = Ok st' ->
      nb_attempts _ _ st' = nb_attempts _ _ st + 1) /\
  exists k o,
    loop_runs' k (initial_state' g d) o /\
    Z.of_nat k <= Z.max 0 (2 * nb_images) /\
    forall fuel, (k < fuel)%nat ->
                 while_loop' fuel (initial_state' g d) = Some o.
Proof.
  split; [exact loop_guard_spec|]. split; [exact loop_body_attempts|].
  destruct (loop_terminates_from (Z.to_nat (2 * nb_images))
                                 (initial_state' g d))
    as [k [o [Hr Hk]]].
  - cbn [initial_state nb_attempts]. lia.
  - exists k, o. split; [exact Hr|]. split; [lia|].
    now apply loop_runs_while.
Qed.

(** C4 (as amended): when the loop ends normally with attempts to spare
    ([nb_attempts < 2 * nb_images]), [image_counter] is at least
    [nb_images] and exceeds it by at most 3, a tile with buildings adding
    four records in one turn; it is the number of records returned. *)
Theorem sampling_exit_count (g : rng) (d : disk) (k : nat) (st : state) :
  loop_runs' k (initial_state' g d) (Finished _ _ st) ->
  nb_attempts _ _ st < 2 * nb_images ->
  nb_images <= image_counter _ _ st <= nb_images + 3 /\
  Z.of_nat (List.length (result_dicts _ _ st)) = image_counter _ _ st.
Proof.
  intros Hr Hspare.
  destruct (loop_runs_invariant
              (fun s => 0 <= nb_attempts _ _ s /\
                        Z.of_nat (List.length (result_dicts _ _ s))
                        = image_counter _ _ s /\
                        image_counter _ _ s <= Z.max 0 nb_images + 3))
    with (k := k) (st := initial_state' g d) (o := Finished _ _ st)
    as [[Ha [Hlen Hmax]] Hexit].
  - intros s s' G B [Ha [Hlen Hmax]].
    apply loop_guard_spec in G.
    destruct (loop_body_cases s s' B)
      as [t [_ [Hatt [[_ [Hc [_ Hres]]]|[[_ [_ [Hc [_ Hres]]]]
                                        |[_ [_ [Hc [_ Hres]]]]]]]]];
      rewrite Hatt, Hc, Hres; try rewrite length_app; cbn [List.length map];
      lia.
  - exact Hr.
  - cbn. lia.
  - cbn [final_state] in *. specialize (Hexit st eq_refl).
    assert (G : ~ (image_counter _ _ st < nb_images /\
                   nb_attempts _ _ st < 2 * nb_images)).
    { intros G. apply loop_guard_spec in G. congruence. }
    split; [lia|exact Hlen].
Qed.



End SamplingProperties.


(** C4 (counterexample): with a target of ten and buildings in every tile,
    the loop ends normally after 3 attempts out of 20 with 12 images
    counted and 12 records. *)
Lemma sampling_overshoots_target :
  option_map Demo.summary (Demo.sample Demo.clip_all 10 50)
  = Some (true, 3, 12, 12%nat) /\
  3 < 2 * 10 /\ 12 <> 10.
Proof. split; [vm_compute; reflexivity|]. split; [lia|discriminate]. Qed.

(** The run with buildings in every tile: three turns, normal exit. *)
Lemma sample_run_finished :
  exists st,
    Demo.sample Demo.clip_all 10 50 = Some (Finished _ _ st) /\
    nb_attempts _ _ st = 3.
Proof. eexists. split; vm_compute; reflexivity. Qed.

(** C4 (witness): the same run. *)
Lemma sampling_exit_count_witness :
  exists st,
    Demo.sample Demo.clip_all 10 50 = Some (Finished _ _ st) /\
    10 <= image_counter _ _ st <= 13 /\
    Z.of_nat (List.length (result_dicts _ _ st)) = image_counter _ _ st.
Proof.
  destruct sample_run_finished as [st [E Ha]].
  exists st. split; [exact E|].
  destruct (while_loop_runs Demo.box_covers Demo.clip_all Demo.srid_32737
              (list (Z * bool)) Demo.present_labels Demo.colour_mask Z
              Demo.lcg_draw (TanzaniaDataset_init 10)
              "data/images/grid_001.tif" "out" 10 Demo.raster_100
              Demo.buildings 50 _ _ E) as [k Hr].
  apply (sampling_exit_count Demo.box_covers Demo.clip_all Demo.srid_32737
           (list (Z * bool)) Demo.present_labels Demo.colour_mask Z
           Demo.lcg_draw (TanzaniaDataset_init 10)
           "data/images/grid_001.tif" "out" 10 Demo.raster_100
           Demo.buildings 42 [] k st Hr).
  rewrite Ha. lia.
Defined.


(** C3 (witness): a target of ten tiles on the sample raster. *)
Lemma sampling_loop_terminates_witness :
  exists k o,
    loop_runs Demo.box_covers Demo.clip_all Demo.srid_32737
              (list (Z * bool)) Demo.present_labels Demo.colour_mask Z
              Demo.lcg_draw (TanzaniaDataset_init 10)
              "data/images/grid_001.tif" "out" 10 Demo.raster_100
              Demo.buildings k (initial_state _ _ 42 []) o /\
    Z.of_nat k <= 20.
Proof.
  destruct (sampling_loop_terminates Demo.box_covers Demo.clip_all
              Demo.srid_32737 (list (Z * bool)) Demo.present_labels
              Demo.colour_mask Z Demo.lcg_draw (TanzaniaDataset_init 10)
              "data/images/grid_001.tif" "out" 10 Demo.raster_100
              Demo.buildings 42 [])
    as [_ [_ [k [o [Hr [Hk _]]]]]].
  exists k, o. split; [exact Hr|exact Hk].
Defined.

(** The all-background run, to the end: twenty attempts, one record. *)
Lemma sample_all_background_run :
  option_map Demo.summary (Demo.sample Demo.clip_none 10 21)
  = Some (true, 20, 1, 1%nat).
Proof. vm_compute. reflexivity. Qed.

(** * Further properties *)

Local Open Scope list_scope.
Local Open Scope string_scope.
Local Open Scope Z_scope.

(** ** More on file names *)

Local Open Scope string_scope.

Lemma length_append_str (a b : string) :
  String.length (a ++ b) = (String.length a + String.length b)%nat.
Proof. induction a as [|x a IH]; simpl; [reflexivity|now rewrite IH]. Qed.

Lemma append_inv_tail (a b c : string) : a ++ c = b ++ c -> a = b.
Proof.
  revert b. induction a as [|x a IH]; intros [|y b] E.
  - reflexivity.
  - apply (f_equal String.length) in E. simpl in E.
    rewrite length_append_str in E. lia.
  - apply (f_equal String.length) in E. simpl in E.
    rewrite length_append_str in E. lia.
  - simpl in E. injection E as -> E. f_equal. now apply IH.
Qed.

(** Two strings cut at their first separator agree part by part. *)
Lemma append_split (a a' : string) (c c' : ascii) (b b' : string) :
  mem_char c a' = false -> mem_char c' a = false ->
  a ++ String c b = a' ++ String c' b' ->
  a = a' /\ c = c' /\ b = b'.
Proof.
  revert a'. induction a as [|x a IH]; intros [|x' a'] Hc Hc' E; simpl in E.
  - injection E as -> ->. repeat split.
  - injection E as -> _. apply mem_char_cons_false in Hc.
    now destruct Hc as [Hc _].
  - injection E as -> _. apply mem_char_cons_false in Hc'.
    now destruct Hc' as [Hc' _].
  - injection E as -> E.
    apply mem_char_cons_false in Hc. apply mem_char_cons_false in Hc'.
    destruct (IH a' (proj2 Hc) (proj2 Hc') E) as [-> [-> ->]].
    repeat split.
Qed.

Lemma string_of_uint_chars (c : ascii) (d : Decimal.uint) :
  mem_char c "0123456789" = false ->
  mem_char c (NilEmpty.string_of_uint d) = false.
Proof.
  intros H. cbn [mem_char] in H.
  repeat (apply orb_false_elim in H; destruct H as [? H]).
  induction d; cbn [NilEmpty.string_of_uint mem_char];
    try reflexivity;
    match goal with
    | E : ?e = false |- (?e || _)%bool = false => rewrite E; exact IHd
    end.
Qed.

(** [str] of an [int] consists of digits and a sign. *)
Lemma str_of_int_chars (c : ascii) (z : Z) :
  mem_char c "0123456789-" = false -> mem_char c (str_of_int z) = false.
Proof.
  intros H. unfold str_of_int.
  assert (Hd : mem_char c "0123456789" = false).
  { cbn [mem_char] in *.
    repeat (apply orb_false_elim in H; destruct H as [? H]).
    repeat (apply orb_false_intro; [assumption|]). reflexivity. }
  assert (Hm : Ascii.eqb c "-" = false).
  { cbn [mem_char] in H.
    repeat (apply orb_false_elim in H; destruct H as [? H]). assumption. }
  destruct (Z.to_int z) as [d|d]; cbn [NilEmpty.string_of_int mem_char].
  - now apply string_of_uint_chars.
  - rewrite Hm. now apply string_of_uint_chars.
Qed.

Lemma str_of_int_inj (a b : Z) : str_of_int a = str_of_int b -> a = b.
Proof.
  unfold str_of_int. intros E.
  apply (f_equal NilEmpty.int_of_string) in E.
  rewrite !NilEmpty.isi in E. injection E as E.
  apply (f_equal Z.of_int) in E. now rewrite !DecimalZ.of_to in E.
Qed.

(** The image path of a tile: a prefix that depends on the raster, the
    output folder and the tile size, then [<x>_<y>] and the ending. *)
Lemma fn_image_shape (self : TanzaniaDataset)
      (image_filename output_dir : string) :
  exists pre,
    forall x y suffix,
      fn_image (_generate_preprocessed_filenames self image_filename
                  output_dir x y suffix)
      = pre ++ str_of_int x ++ "_" ++ str_of_int y ++ tile_ending suffix.
Proof.
  exists (with_sep output_dir ++ "images" ++ "/"
          ++ fst (os_path.splitext (os_path.basename image_filename))
          ++ "_" ++ str_of_int (image_size self) ++ "_"
          ++ str_of_int (image_size self) ++ "_").
  intros x y suffix. unfold _generate_preprocessed_filenames.
  cbn [fn_image].
  rewrite (join_segment output_dir "images" _ "i"%char "mages");
    try reflexivity; try discriminate;
    [|apply new_filename_relative].
  rewrite new_filename_shape. unfold tile_tag, tile_ending.
  destruct suffix; repeat rewrite append_assoc_str; reflexivity.
Qed.

Lemma tile_ending_inj (s s' : option string) :
  tile_ending s = tile_ending s' -> s = s'.
Proof.
  destruct s as [a|], s' as [b|]; unfold tile_ending; intros E;
    try discriminate.
  - simpl in E. injection E as E. apply append_inv_tail in E. now subst.
  - reflexivity.
Qed.

Lemma tile_ending_head (s : option string) :
  exists c rest, tile_ending s = String c rest /\
                 mem_char c "0123456789-" = false.
Proof.
  destruct s as [a|]; unfold tile_ending.
  - exists "_"%char, (a ++ ".png"). split; reflexivity.
  - exists "."%char, "png". split; reflexivity.
Qed.

Lemma fn_image_inj (self : TanzaniaDataset)
      (image_filename output_dir : string) (x y x' y' : Z)
      (suffix suffix' : option string) :
  fn_image (_generate_preprocessed_filenames self image_filename output_dir
              x y suffix)
  = fn_image (_generate_preprocessed_filenames self image_filename output_dir
                x' y' suffix') ->
  x = x' /\ y = y' /\ suffix = suffix'.
Proof.
  destruct (fn_image_shape self image_filename output_dir) as [pre Hpre].
  rewrite !Hpre. intros E. apply append_inv_head in E.
  change (str_of_int x ++ "_" ++ str_of_int y ++ tile_ending suffix)
    with (str_of_int x ++ String "_" (str_of_int y ++ tile_ending suffix))
    in E.
  change (str_of_int x' ++ "_" ++ str_of_int y' ++ tile_ending suffix')
    with (str_of_int x' ++ String "_" (str_of_int y' ++ tile_ending suffix'))
    in E.
  apply append_split in E; try (apply str_of_int_chars; reflexivity).
  destruct E as [Ex [_ E]].
  destruct (tile_ending_head suffix) as [c [rest [Hc Hcd]]].
  destruct (tile_ending_head suffix') as [c' [rest' [Hc' Hcd']]].
  rewrite Hc, Hc' in E.
  apply append_split in E; try (now apply str_of_int_chars).
  destruct E as [Ey [Ec Er]].
  split; [now apply str_of_int_inj|]. split; [now apply str_of_int_inj|].
  apply tile_ending_inj. rewrite Hc, Hc'. congruence.
Qed.

(** ["images"] occurs in a string that it starts, and in what follows a
    prefix. *)
Lemma contains_app_r (w a b : string) :
  contains w b = true -> contains w (a ++ b) = true.
Proof.
  intros H. induction a as [|c a IH]; [exact H|].
  change (String c a ++ b) with (String c (a ++ b)).
  cbn [contains]. rewrite IH. apply orb_true_r.
Qed.

Lemma replace_changes (s : string) :
  contains "images" s = true -> replace "images" "labels" s <> s.
Proof.
  unfold replace. induction s as [|c s IH]; [discriminate|].
  cbn [contains replace_from].
  destruct (prefix "images" (String c s)) eqn:P.
  - intros _ E. cbn [prefix] in P.
    destruct (ascii_dec "i" c) as [<-|]; [|discriminate]. discriminate E.
  - rewrite orb_false_l. intros H E. injection E as E. now apply IH.
Qed.

(** X1: the label path of a tile is never its image path: the mask of a
    tile is not written over the tile. *)
Theorem label_path_differs_from_image_path
        (self : TanzaniaDataset) (image_filename output_dir : string)
        (x y : Z) (suffix : option string) :
  String.eqb
    (fn_labels (_generate_preprocessed_filenames self image_filename
                  output_dir x y suffix))
    (fn_image (_generate_preprocessed_filenames self image_filename
                 output_dir x y suffix))
  = false.
Proof.
  apply String.eqb_neq.
  unfold _generate_preprocessed_filenames. cbn [fn_image fn_labels].
  apply replace_changes.
  rewrite (join_segment output_dir "images" _ "i"%char "mages");
    try reflexivity; try discriminate;
    [|apply new_filename_relative].
  apply contains_app_r. reflexivity.
Qed.

(** X2: for one raster, one output folder and one tile size, the image path
    determines the origin and the suffix of the tile: two tiles share a path
    only if they have the same [x], [y] and suffix. *)
Theorem image_path_determines_tile
        (self : TanzaniaDataset) (image_filename output_dir : string)
        (x y x' y' : Z) (suffix suffix' : option string) :
  fn_image (_generate_preprocessed_filenames self image_filename output_dir
              x y suffix)
  = fn_image (_generate_preprocessed_filenames self image_filename output_dir
                x' y' suffix') <->
  x = x' /\ y = y' /\ suffix = suffix'.
Proof.
  split; [apply fn_image_inj|]. intros [-> [-> ->]]. reflexivity.
Qed.

(** ** More on exhaustive tiling *)

Local Open Scope Z_scope.
Local Open Scope list_scope.

Lemma NoDup_map_injective {A B : Type} (f : A -> B) (l : list A) :
  (forall a b, f a = f b -> a = b) -> NoDup l -> NoDup (map f l).
Proof.
  intros Hf H. induction H as [|a l Ha Hl IH]; cbn [map]; constructor.
  - intros Hin. apply in_map_iff in Hin. destruct Hin as [b [E Hb]].
    apply Hf in E. now subst b.
  - exact IH.
Qed.

Lemma multiples_NoDup (stop step : Z) : 0 < step -> NoDup (multiples stop step).
Proof.
  intros Hs. unfold multiples. apply NoDup_map_injective; [|apply seq_NoDup].
  intros a b E. nia.
Qed.

Lemma multiples_length (stop step : Z) :
  List.length (multiples stop step) = Z.to_nat ((stop + step - 1) / step).
Proof. unfold multiples. now rewrite length_map, length_seq. Qed.

Lemma pairs_NoDup {A B : Type} (xs : list A) (ys : list B) :
  NoDup xs -> NoDup ys ->
  NoDup (flat_map (fun x => map (fun y => (x, y)) ys) xs).
Proof.
  intros Hx Hy. induction Hx as [|x xs Hin Hxs IH]; cbn [flat_map].
  - constructor.
  - apply NoDup_app.
    + apply NoDup_map_injective; [|exact Hy]. intros a b E. now injection E.
    + exact IH.
    + intros [a b] H1 H2. apply in_map_iff in H1.
      destruct H1 as [y [E _]]. injection E as -> ->.
      apply in_flat_map in H2. destruct H2 as [x' [Hx' H2]].
      apply in_map_iff in H2. destruct H2 as [y' [E _]].
      injection E as -> ->. contradiction.
Qed.

Lemma pairs_length {A B : Type} (xs : list A) (ys : list B) :
  List.length (flat_map (fun x => map (fun y => (x, y)) ys) xs)
  = (List.length xs * List.length ys)%nat.
Proof.
  induction xs as [|x xs IH]; cbn [flat_map List.length]; [reflexivity|].
  rewrite length_app, length_map, IH. lia.
Qed.

Lemma grid_NoDup (w h step : Z) : 0 < step -> NoDup (grid w h step).
Proof.
  intros Hs. unfold grid. apply pairs_NoDup; now apply multiples_NoDup.
Qed.

Lemma grid_length (w h step : Z) :
  List.length (grid w h step)
  = (Z.to_nat ((w + step - 1) / step) * Z.to_nat ((h + step - 1) / step))%nat.
Proof. unfold grid. now rewrite pairs_length, !multiples_length. Qed.

(** What exhaustive tiling returns, for a positive tile size. *)
Lemma preprocess_for_inference_spec
      (gdal_Open : string -> raster)
      (gdal_Translate : raster -> Z -> Z -> Z -> Z -> image)
      (label_dict : Type) (self : TanzaniaDataset)
      (image_filename output_dir : string) (d : disk) :
  0 < image_size self ->
  _preprocess_for_inference gdal_Open gdal_Translate label_dict self
                            image_filename output_dir d
  = Ok (map (inference_record label_dict self image_filename output_dir)
            (grid (RasterXSize (gdal_Open image_filename))
                  (RasterYSize (gdal_Open image_filename))
                  (image_size self)),
        d ++ map (inference_file gdal_Open gdal_Translate self image_filename
                                 output_dir)
                 (grid (RasterXSize (gdal_Open image_filename))
                       (RasterYSize (gdal_Open image_filename))
                       (image_size self))).
Proof.
  intros Hs. unfold _preprocess_for_inference. cbv zeta.
  rewrite (py_range_from_0 _ _ Hs). cbn [bind].
  now rewrite inference_rows_spec.
Qed.

(** Every pixel of the raster lies in the window of exactly one origin of
    the grid. *)
Lemma grid_window_unique (w h s px py : Z) :
  0 < s -> 0 <= px < w -> 0 <= py < h ->
  exists x y,
    In (x, y) (grid w h s) /\
    (x <= px < x + s /\ y <= py < y + s) /\
    forall x' y',
      In (x', y') (grid w h s) ->
      x' <= px < x' + s -> y' <= py < y' + s -> x' = x /\ y' = y.
Proof.
  intros Hs Hx Hy.
  pose proof (Z.mod_pos_bound px s Hs) as Hmx.
  pose proof (Z.mod_pos_bound py s Hs) as Hmy.
  pose proof (Z.div_mod px s ltac:(lia)) as Dx.
  pose proof (Z.div_mod py s ltac:(lia)) as Dy.
  exists (s * (px / s)), (s * (py / s)). split; [|split].
  - apply In_grid; [exact Hs|].
    rewrite !(Z.mul_comm s), !Z.mod_mul by lia.
    repeat split; try lia.
    + apply Z.mul_nonneg_nonneg; [apply Z.div_pos|]; lia.
    + apply Z.mul_nonneg_nonneg; [apply Z.div_pos|]; lia.
  - lia.
  - intros x' y' Hin Hx' Hy'. apply In_grid in Hin; [|exact Hs].
    destruct Hin as [[_ Mx] [_ My]].
    pose proof (Z.div_mod x' s ltac:(lia)) as Dx'.
    pose proof (Z.div_mod y' s ltac:(lia)) as Dy'.
    rewrite Mx in Dx'. rewrite My in Dy'.
    assert (Ex : x' / s = px / s) by nia.
    assert (Ey : y' / s = py / s) by nia.
    rewrite <- Ex, <- Ey. split; lia.
Qed.

Section MoreInference.

Variable gdal_Open : string -> raster.
Variable gdal_Translate : raster -> Z -> Z -> Z -> Z -> image.
Variable label_dict : Type.

Local Abbreviation image_path := (@image_filename label_dict).

(** X3: with a positive tile size, exhaustive tiling gives every tile its
    own image path, and writes as many files as it returns records and no
    file twice. *)
Theorem inference_paths_distinct
        (self : TanzaniaDataset) (image_filename output_dir : string)
        (d : disk) :
  0 < image_size self ->
  exists records d',
    _preprocess_for_inference gdal_Open gdal_Translate label_dict self
                              image_filename output_dir d
    = Ok (records, d ++ d') /\
    NoDup (map image_path records) /\
    map fst d' = map image_path records.
Proof.
  intros Hs. eexists. eexists. split.
  - now apply preprocess_for_inference_spec.
  - split.
    + rewrite map_map. apply NoDup_map_injective; [|now apply grid_NoDup].
      intros [x y] [x' y'] E. cbn in E.
      apply fn_image_inj in E. destruct E as [-> [-> _]]. reflexivity.
    + rewrite !map_map. reflexivity.
Qed.

(** X4: with a positive tile size, exhaustive tiling returns
    [ceil(W / s) * ceil(H / s)] records for a raster of [W x H] pixels and
    tiles of [s], the partial tiles at the east and south edges included. *)
Theorem inference_record_count
        (self : TanzaniaDataset) (image_filename output_dir : string)
        (d : disk) :
  0 < image_size self ->
  exists records d',
    _preprocess_for_inference gdal_Open gdal_Translate label_dict self
                              image_filename output_dir d
    = Ok (records, d') /\
    List.length records
    = (Z.to_nat ((RasterXSize (gdal_Open image_filename)
                  + image_size self - 1) / image_size self)
       * Z.to_nat ((RasterYSize (gdal_Open image_filename)
                    + image_size self - 1) / image_size self))%nat /\
    List.length d' = (List.length d + List.length records)%nat.
Proof.
  intros Hs. eexists. eexists. split.
  - now apply preprocess_for_inference_spec.
  - rewrite length_app, !length_map, grid_length. split; reflexivity.
Qed.

(** X5: a tile size of zero makes exhaustive tiling raise [ValueError]
    (the step of [range]) before any file is written, and a negative tile
    size on a raster of non-negative width makes it return no record and
    write nothing. *)
Theorem inference_degenerate_tile_size
        (self : TanzaniaDataset) (image_filename output_dir : string)
        (d : disk) :
  (image_size self = 0 ->
   _preprocess_for_inference gdal_Open gdal_Translate label_dict self
                             image_filename output_dir d
   = Raise ValueError) /\
  (image_size self < 0 ->
   0 <= RasterXSize (gdal_Open image_filename) ->
   _preprocess_for_inference gdal_Open gdal_Translate label_dict self
                             image_filename output_dir d
   = Ok ([], d)).
Proof.
  unfold _preprocess_for_inference, py_range. cbv zeta. split.
  - intros ->. reflexivity.
  - intros Hs Hw.
    destruct (image_size self =? 0) eqn:E; [apply Z.eqb_eq in E; lia|].
    destruct (0 <? image_size self) eqn:E2; [apply Z.ltb_lt in E2; lia|].
    assert (H : (0 - RasterXSize (gdal_Open image_filename)
                 - image_size self - 1) / - image_size self <= 0).
    { apply Z.lt_succ_r. apply Z.div_lt_upper_bound; lia. }
    replace (Z.to_nat _) with 0%nat by lia. reflexivity.
Qed.

(** X6: the tiles of exhaustive tiling partition the raster: with a positive
    tile size, the origins of the tiles returned are such that every pixel
    [(px, py)] of the raster lies in the window [[x, x + s) x [y, y + s)] of
    exactly one of them. *)
Theorem inference_tiles_partition_raster
        (self : TanzaniaDataset) (image_filename output_dir : string)
        (d : disk) (px py : Z) :
  0 < image_size self ->
  0 <= px < RasterXSize (gdal_Open image_filename) ->
  0 <= py < RasterYSize (gdal_Open image_filename) ->
  exists origins,
    _preprocess_for_inference gdal_Open gdal_Translate label_dict self
                              image_filename output_dir d
    = Ok (map (inference_record label_dict self image_filename output_dir)
              origins,
          d ++ map (inference_file gdal_Open gdal_Translate self
                                   image_filename output_dir) origins) /\
    exists x y,
      In (x, y) origins /\
      (x <= px < x + image_size self /\ y <= py < y + image_size self) /\
      forall x' y',
        In (x', y') origins ->
        x' <= px < x' + image_size self ->
        y' <= py < y' + image_size self -> x' = x /\ y' = y.
Proof.
  intros Hs Hx Hy. eexists. split.
  - now apply preprocess_for_inference_spec.
  - now apply grid_window_unique.
Qed.

End MoreInference.

(** X3 (witness): the sample raster in tiles of 50. *)
Lemma inference_paths_distinct_witness :
  exists records d',
    _preprocess_for_inference Demo.open_raster Demo.translate
                              (list (Z * bool)) (TanzaniaDataset_init 50)
                              "data/images/grid_001.tif" "out" []
    = Ok (records, [] ++ d') /\
    NoDup (map (fun rec => image_filename rec) records) /\
    map fst d' = map (fun rec => image_filename rec) records.
Proof.
  apply (inference_paths_distinct Demo.open_raster Demo.translate
           (list (Z * bool)) (TanzaniaDataset_init 50)
           "data/images/grid_001.tif" "out" []).
  simpl. lia.
Defined.

(** X4 (witness): the sample raster in tiles of 30: sixteen tiles. *)
Lemma inference_record_count_witness :
  exists records d',
    _preprocess_for_inference Demo.open_raster Demo.translate
                              (list (Z * bool)) (TanzaniaDataset_init 30)
                              "data/images/grid_001.tif" "out" []
    = Ok (records, d') /\
    List.length records = 16%nat.
Proof.
  destruct (inference_record_count Demo.open_raster Demo.translate
              (list (Z * bool)) (TanzaniaDataset_init 30)
              "data/images/grid_001.tif" "out" [])
    as [records [d' [E [Hlen _]]]].
  - simpl. lia.
  - exists records, d'. split; [exact E|exact Hlen].
Defined.

(** X6 (witness): pixel (75, 20) of the sample raster, in tiles of 50. *)
Lemma inference_tiles_partition_raster_witness :
  exists origins x y,
    fmap fst (_preprocess_for_inference Demo.open_raster Demo.translate
                (list (Z * bool)) (TanzaniaDataset_init 50)
                "data/images/grid_001.tif" "out" [])
    = Ok (map (inference_record (list (Z * bool)) (TanzaniaDataset_init 50)
                                "data/images/grid_001.tif" "out") origins) /\
    In (x, y) origins /\ x <= 75 < x + 50 /\ y <= 20 < y + 50.
Proof.
  destruct (inference_tiles_partition_raster Demo.open_raster Demo.translate
              (list (Z * bool)) (TanzaniaDataset_init 50)
              "data/images/grid_001.tif" "out" [] 75 20)
    as [origins [E [x [y [Hin [Hw _]]]]]]; try (simpl; lia).
  exists origins, x, y. rewrite E. split; [reflexivity|].
  split; [exact Hin|exact Hw].
Defined.

(** X5 (witness): the sample raster with tile sizes 0 and -5. *)
Lemma inference_degenerate_tile_size_witness :
  _preprocess_for_inference Demo.open_raster Demo.translate
                            (list (Z * bool)) (TanzaniaDataset_init 0)
                            "data/images/grid_001.tif" "out" []
  = Raise ValueError /\
  _preprocess_for_inference Demo.open_raster Demo.translate
                            (list (Z * bool)) (TanzaniaDataset_init (-5))
                            "data/images/grid_001.tif" "out" []
  = Ok ([], []).
Proof.
  split.
  - destruct (inference_degenerate_tile_size Demo.open_raster Demo.translate
                (list (Z * bool)) (TanzaniaDataset_init 0)
                "data/images/grid_001.tif" "out" []) as [H _].
    apply H. reflexivity.
  - destruct (inference_degenerate_tile_size Demo.open_raster Demo.translate
                (list (Z * bool)) (TanzaniaDataset_init (-5))
                "data/images/grid_001.tif" "out" []) as [_ H].
    apply H; simpl; lia.
Defined.

(** ** More on the mask of a tile *)

Local Open Scope Z_scope.
Local Open Scope list_scope.

Lemma mapi_from_nth_error {A B : Type} (f : Z -> A -> B) (l : list A) :
  forall (i : Z) (k : nat),
    nth_error (mapi_from f i l) k
    = option_map (f (i + Z.of_nat k)) (nth_error l k).
Proof.
  induction l as [|a l IH]; intros i k.
  - now destruct k.
  - destruct k as [|k]; cbn [mapi_from nth_error option_map].
    + now rewrite Z.add_0_r.
    + rewrite IH. do 2 f_equal. lia.
Qed.

Section MoreMaskProperties.

Variable polygon_covers : list (Z * Z) -> Z -> Z -> bool.

Lemma fillPoly_cell (m : mask) (points : list (Z * Z)) (color r c : Z) :
  0 <= r -> 0 <= c ->
  mask_cell (cv2_fillPoly polygon_covers m points color) r c
  = option_map (fun v => if polygon_covers points r c
                         then saturate_uint8 color else v)
               (mask_cell m r c).
Proof.
  intros Hr Hc. unfold mask_cell, cv2_fillPoly.
  rewrite mapi_from_nth_error.
  destruct (nth_error m (Z.to_nat r)) as [row|]; [|reflexivity].
  cbn [option_map]. rewrite mapi_from_nth_error.
  replace (0 + Z.of_nat (Z.to_nat r)) with r by lia.
  replace (0 + Z.of_nat (Z.to_nat c)) with c by lia.
  reflexivity.
Qed.

Lemma mask_shape_cell (n : nat) (m : mask) (r c : Z) :
  mask_shape n m -> 0 <= r < Z.of_nat n -> 0 <= c < Z.of_nat n ->
  exists v, mask_cell m r c = Some v.
Proof.
  intros [Hl Hrows] Hr Hc. unfold mask_cell.
  destruct (nth_error m (Z.to_nat r)) as [row|] eqn:E.
  - assert (Hrow : List.length row = n).
    { eapply Forall_forall in Hrows; [exact Hrows|].
      eapply nth_error_In; exact E. }
    destruct (nth_error row (Z.to_nat c)) as [v|] eqn:E2; [now exists v|].
    apply nth_error_None in E2. lia.
  - apply nth_error_None in E. lia.
Qed.

Lemma zeros_cell (n : nat) (r c : Z) :
  0 <= r < Z.of_nat n -> 0 <= c < Z.of_nat n ->
  mask_cell (repeat (repeat 0 n) n) r c = Some 0.
Proof.
  intros Hr Hc. unfold mask_cell.
  rewrite nth_error_repeat by lia. now rewrite nth_error_repeat by lia.
Qed.

(** The loop over the rows, cut in two. *)
Lemma fill_buildings_app (self : TanzaniaDataset)
      (features : image_features) (min_x min_y : Z)
      (rows1 rows2 : list building) :
  forall m m',
    fill_buildings polygon_covers self m (rows1 ++ rows2) features min_x min_y
    = Ok m' ->
    exists m1,
      fill_buildings polygon_covers self m rows1 features min_x min_y = Ok m1 /\
      fill_buildings polygon_covers self m1 rows2 features min_x min_y = Ok m'.
Proof.
  induction rows1 as [|row rows1 IH]; intros m m' E.
  - exists m. split; [reflexivity|exact E].
  - cbn [app fill_buildings] in *.
    destruct (extract_points_from_polygon _ _ _ _) as [points|e];
      cbn [bind] in *; [|discriminate].
    destruct (label_id_of self (lower (condition row))) as [id|e];
      cbn [bind] in *; [|discriminate].
    now apply IH.
Qed.

(** Rows that do not cover a cell leave it as it is. *)
Lemma fill_buildings_uncovered (self : TanzaniaDataset)
      (features : image_features) (min_x min_y r c : Z)
      (rows : list building) :
  0 <= r -> 0 <= c ->
  (forall b points,
      In b rows ->
      extract_points_from_polygon (geometry b) features min_x min_y
      = Ok points ->
      polygon_covers points r c = false) ->
  forall m m',
    fill_buildings polygon_covers self m rows features min_x min_y = Ok m' ->
    mask_cell m' r c = mask_cell m r c.
Proof.
  intros Hr Hc. induction rows as [|row rows IH]; intros Hun m m' E.
  - cbn in E. now injection E as <-.
  - cbn [fill_buildings] in E.
    destruct (extract_points_from_polygon (geometry row) features min_x min_y)
      as [points|e] eqn:Hp; cbn [bind] in E; [|discriminate].
    destruct (label_id_of self (lower (condition row))) as [id|e];
      cbn [bind] in E; [|discriminate].
    rewrite (IH (fun b pts Hb => Hun b pts (or_intror Hb)) _ _ E).
    rewrite fillPoly_cell by assumption.
    rewrite (Hun row points (or_introl eq_refl) Hp).
    now destruct (mask_cell m r c).
Qed.

(** The values the loop writes are ids that the rows name. *)
Lemma fill_buildings_values (self : TanzaniaDataset) (P : Z -> Prop)
      (features : image_features) (min_x min_y : Z) (rows : list building) :
  (forall b id,
      In b rows -> label_id_of self (lower (condition b)) = Ok id ->
      P (saturate_uint8 id)) ->
  forall m m',
    mask_values P m ->
    fill_buildings polygon_covers self m rows features min_x min_y = Ok m' ->
    mask_values P m'.
Proof.
  induction rows as [|row rows IH]; intros HP m m' Hm E.
  - cbn in E. now injection E as <-.
  - cbn [fill_buildings] in E.
    destruct (extract_points_from_polygon _ _ _ _) as [points|e];
      cbn [bind] in E; [|discriminate].
    destruct (label_id_of self (lower (condition row))) as [id|e] eqn:Hid;
      cbn [bind] in E; [|discriminate].
    apply (IH (fun b i Hb => HP b i (or_intror Hb)) _ _
              (fillPoly_values polygon_covers P m points id
                 (HP row id (or_introl eq_refl) Hid) Hm) E).
Qed.

Lemma fill_buildings_same_up_to_case (self : TanzaniaDataset)
      (features : image_features) (min_x min_y : Z)
      (rows rows' : list building) :
  Forall2 same_up_to_case rows rows' ->
  forall m,
    fill_buildings polygon_covers self m rows features min_x min_y
    = fill_buildings polygon_covers self m rows' features min_x min_y.
Proof.
  induction 1 as [|b b' rows rows' [Hg Hc] _ IH]; intros m; [reflexivity|].
  cbn [fill_buildings]. rewrite Hg, Hc.
  destruct (extract_points_from_polygon _ _ _ _) as [points|e];
    cbn [bind]; [|reflexivity].
  destruct (label_id_of self (lower (condition b'))) as [id|e];
    cbn [bind]; [|reflexivity].
  apply IH.
Qed.

(** The mask before the loop, when [load_mask] returns on some rows. *)
Lemma load_mask_inv (self : TanzaniaDataset) (buildings : list building)
      (features : image_features) (min_x min_y : Z) (m : mask) :
  load_mask polygon_covers self buildings features min_x min_y = Ok m ->
  0 <= image_size self /\
  fill_buildings polygon_covers self
                 (repeat (repeat 0 (Z.to_nat (image_size self)))
                         (Z.to_nat (image_size self)))
                 buildings features min_x min_y = Ok m.
Proof.
  unfold load_mask, np_zeros.
  destruct (image_size self <? 0) eqn:Hs; cbn [bind]; [discriminate|].
  apply Z.ltb_ge in Hs.
  destruct buildings as [|b bs].
  - cbn. intros E. now split.
  - replace (Z.of_nat (List.length (b :: bs)) =? 0) with false
      by (symmetry; apply Z.eqb_neq; simpl List.length; lia).
    intros E. now split.
Qed.

(** X7: [load_mask] compares conditions without regard to ASCII case: two
    tables with the same polygons, whose conditions differ in case only, give
    the same result. *)
Theorem load_mask_case_insensitive
        (self : TanzaniaDataset) (buildings buildings' : list building)
        (features : image_features) (min_x min_y : Z) :
  Forall2 same_up_to_case buildings buildings' ->
  load_mask polygon_covers self buildings features min_x min_y
  = load_mask polygon_covers self buildings' features min_x min_y.
Proof.
  intros H. unfold load_mask.
  rewrite (Forall2_length H).
  destruct (np_zeros (image_size self)) as [m|e]; cbn [bind]; [|reflexivity].
  destruct (Z.of_nat (List.length buildings') =? 0); [reflexivity|].
  now apply fill_buildings_same_up_to_case.
Qed.

(** X8: a mask returned by [load_mask] holds, besides the background 0,
    only ids of labels that some row of the table names (as stored in a
    [uint8] cell): no other label is ever written. *)
Theorem load_mask_values_named_by_rows
        (self : TanzaniaDataset) (buildings : list building)
        (features : image_features) (min_x min_y : Z) (m : mask) :
  load_mask polygon_covers self buildings features min_x min_y = Ok m ->
  mask_values
    (fun v =>
       v = 0 \/
       exists b id,
         In b buildings /\
         label_id_of self (lower (condition b)) = Ok id /\
         v = saturate_uint8 id)
    m.
Proof.
  intros E. apply load_mask_inv in E. destruct E as [_ E].
  eapply fill_buildings_values; [| |exact E].
  - intros b id Hb Hid. right. now exists b, id.
  - apply zeros_values. now left.
Qed.

(** X9: a cell of the tile that no polygon of the table covers is
    background in the mask that [load_mask] returns. *)
Theorem load_mask_uncovered_cell_is_background
        (self : TanzaniaDataset) (buildings : list building)
        (features : image_features) (min_x min_y r c : Z) (m : mask) :
  load_mask polygon_covers self buildings features min_x min_y = Ok m ->
  0 <= r < image_size self -> 0 <= c < image_size self ->
  (forall b points,
      In b buildings ->
      extract_points_from_polygon (geometry b) features min_x min_y
      = Ok points ->
      polygon_covers points r c = false) ->
  mask_cell m r c = Some 0.
Proof.
  intros E Hr Hc Hun. apply load_mask_inv in E. destruct E as [Hs E].
  rewrite (fill_buildings_uncovered self features min_x min_y r c buildings
             ltac:(lia) ltac:(lia) Hun _ _ E).
  apply zeros_cell; lia.
Qed.

(** X10: where polygons overlap, the last row of the table wins: a cell
    covered by the polygon of a row, and by no polygon of the rows after it,
    holds the id of that row's label. *)
Theorem load_mask_last_polygon_wins
        (self : TanzaniaDataset) (before after : list building)
        (b : building) (features : image_features)
        (min_x min_y r c : Z) (m : mask) (points : list (Z * Z)) (id : Z) :
  load_mask polygon_covers self (before ++ b :: after) features min_x min_y
  = Ok m ->
  0 <= r < image_size self -> 0 <= c < image_size self ->
  extract_points_from_polygon (geometry b) features min_x min_y = Ok points ->
  label_id_of self (lower (condition b)) = Ok id ->
  polygon_covers points r c = true ->
  (forall b' points',
      In b' after ->
      extract_points_from_polygon (geometry b') features min_x min_y
      = Ok points' ->
      polygon_covers points' r c = false) ->
  mask_cell m r c = Some (saturate_uint8 id).
Proof.
  intros E Hr Hc Hp Hid Hcov Hun.
  apply load_mask_inv in E. destruct E as [Hs E].
  apply fill_buildings_app in E. destruct E as [m1 [E1 E2]].
  cbn [fill_buildings] in E2. rewrite Hp, Hid in E2. cbn [bind] in E2.
  rewrite (fill_buildings_uncovered self features min_x min_y r c after
             ltac:(lia) ltac:(lia) Hun _ _ E2).
  rewrite fillPoly_cell by lia. rewrite Hcov.
  destruct (fill_buildings_invariant polygon_covers self (fun _ => True)
              (Z.to_nat (image_size self)) features min_x min_y before
              (fun _ _ => I) _ m1 (zeros_shape _)
              (zeros_values _ _ _ I) E1) as [Hshape _].
  destruct (mask_shape_cell _ m1 r c Hshape) as [v Hv]; try lia.
  now rewrite Hv.
Qed.

End MoreMaskProperties.

(** X7 (witness): one polygon, once as ["Complete"] and once as
    ["COMPLETE"]. *)
Lemma load_mask_case_insensitive_witness :
  load_mask Demo.box_covers (TanzaniaDataset_init 10)
            [{| condition := "Complete"; geometry := geometry Demo.ruin |}]
            Demo.features_100 45 45
  = load_mask Demo.box_covers (TanzaniaDataset_init 10)
              [{| condition := "COMPLETE"; geometry := geometry Demo.ruin |}]
              Demo.features_100 45 45.
Proof.
  apply load_mask_case_insensitive.
  constructor; [|constructor]. split; reflexivity.
Defined.

(** X8 (witness): the sample table on the tile at (5, 5). *)
Lemma load_mask_values_named_by_rows_witness :
  exists m,
    load_mask Demo.box_covers (TanzaniaDataset_init 10) Demo.buildings
              Demo.features_100 5 5 = Ok m /\
    mask_values
      (fun v =>
         v = 0 \/
         exists b id,
           In b Demo.buildings /\
           label_id_of (TanzaniaDataset_init 10) (lower (condition b))
           = Ok id /\
           v = saturate_uint8 id)
      m.
Proof.
  eexists. split; [vm_compute; reflexivity|].
  apply (load_mask_values_named_by_rows Demo.box_covers
           (TanzaniaDataset_init 10) Demo.buildings Demo.features_100 5 5).
  vm_compute. reflexivity.
Defined.

(** X9 (witness): the north-west corner of that tile. *)
Lemma load_mask_uncovered_cell_is_background_witness :
  exists m,
    load_mask Demo.box_covers (TanzaniaDataset_init 10) Demo.buildings
              Demo.features_100 5 5 = Ok m /\
    mask_cell m 0 0 = Some 0.
Proof.
  eexists. split; [vm_compute; reflexivity|].
  apply (load_mask_uncovered_cell_is_background Demo.box_covers
           (TanzaniaDataset_init 10) Demo.buildings Demo.features_100 5 5).
  - vm_compute. reflexivity.
  - simpl. lia.
  - simpl. lia.
  - intros b points Hb Hp. vm_compute in Hb.
    destruct Hb as [<-|[<-|[]]]; vm_compute in Hp; injection Hp as <-;
      reflexivity.
Defined.

(** X10 (witness): a foundation drawn over the first building of the
    sample table. *)
Lemma load_mask_last_polygon_wins_witness :
  exists m,
    load_mask Demo.box_covers (TanzaniaDataset_init 10)
              (Demo.buildings
               ++ [{| condition := "Foundation";
                      geometry := [(533010, 9249990); (533020, 9249990);
                                   (533020, 9249980)]%float |}])
              Demo.features_100 5 5 = Ok m /\
    mask_cell m 7 7 = Some 3.
Proof.
  eexists. split; [vm_compute; reflexivity|].
  change (Some 3) with (Some (saturate_uint8 3)).
  eapply (load_mask_last_polygon_wins Demo.box_covers
            (TanzaniaDataset_init 10) Demo.buildings []
            {| condition := "Foundation";
               geometry := [(533010, 9249990); (533020, 9249990);
                            (533020, 9249980)]%float |}
            Demo.features_100 5 5 7 7).
  - vm_compute. reflexivity.
  - simpl. lia.
  - simpl. lia.
  - vm_compute. reflexivity.
  - reflexivity.
  - reflexivity.
  - intros b' points' [].
Defined.

(** ** The lookup of a label and the vertices of a polygon *)

Lemma filter_none {A : Type} (f : A -> bool) (l : list A) :
  (forall a, In a l -> f a = false) -> filter f l = [].
Proof.
  induction l as [|a l IH]; intros H; [reflexivity|].
  cbn [filter]. rewrite (H a (or_introl eq_refl)).
  apply IH. intros b Hb. apply H. now right.
Qed.

(** X11: the lookup of a label by name returns the id of the first label of
    the registry that bears the name, and raises [IndexError] exactly when no
    label bears it. *)
Theorem label_lookup_first_match (self : TanzaniaDataset) (name : string) :
  (forall l1 lab l2,
      labels self = l1 ++ lab :: l2 ->
      label_name lab = name ->
      (forall l, In l l1 -> label_name l <> name) ->
      label_id_of self name = Ok (label_id lab)) /\
  (label_id_of self name = Raise IndexError <->
   ~ In name (label_names self)).
Proof.
  split.
  - intros l1 lab l2 E Hn Hl1. unfold label_id_of. rewrite E, filter_app.
    rewrite (filter_none _ l1).
    + cbn [app filter]. rewrite Hn, String.eqb_refl. reflexivity.
    + intros l Hl. apply String.eqb_neq. now apply Hl1.
  - destruct (label_id_of_inv self name) as [[id [E [_ Hin]]]|[E Hno]];
      rewrite E; split; intros H; try discriminate; try contradiction;
      try reflexivity; assumption.
Qed.

Lemma comprehension_length {A B : Type} (f : A -> result B) (l : list A) :
  forall bs, comprehension f l = Ok bs -> List.length bs = List.length l.
Proof.
  induction l as [|a l IH]; intros bs E; cbn in E.
  - now injection E as <-.
  - destruct (f a) as [b|e]; cbn in E; [|discriminate].
    destruct (comprehension f l) as [bs'|e]; cbn in E; [|discriminate].
    injection E as <-. cbn. now rewrite (IH bs' eq_refl).
Qed.

Lemma comprehension_Forall {A B : Type} (f : A -> result B) (P : B -> Prop)
      (l : list A) :
  (forall a b, f a = Ok b -> P b) ->
  forall bs, comprehension f l = Ok bs -> Forall P bs.
Proof.
  intros Hf. induction l as [|a l IH]; intros bs E; cbn in E.
  - injection E as <-. constructor.
  - destruct (f a) as [b|e] eqn:Ea; cbn in E; [|discriminate].
    destruct (comprehension f l) as [bs'|e]; cbn in E; [|discriminate].
    injection E as <-. constructor; [now apply (Hf a)|now apply IH].
Qed.

Lemma int_items_ints (qs : list Z) :
  int_items (PList (map (@PInt float) qs)) = qs.
Proof.
  cbn [int_items]. induction qs as [|q qs IH]; cbn; [reflexivity|].
  now rewrite IH.
Qed.

Lemma wrap_int32_range (z : Z) : in_int32 (wrap_int32 z).
Proof.
  unfold in_int32, wrap_int32.
  pose proof (Z.mod_pos_bound (z + 2 ^ 31) (2 ^ 32) ltac:(lia)). lia.
Qed.

Lemma get_pixel_floats (cs : list float) (mn mx : float) (size : Z)
      (v : pyval float) :
  get_pixel (PList (map (@PFloat float) cs)) mn mx size = Ok v ->
  exists qs, v = PList (map (@PInt float) qs) /\
             List.length qs = List.length cs.
Proof.
  intros E.
  destruct (comprehension_numbers (pixel_of mn mx size) (@PInt float)
              (map (@PFloat float) cs) (pixel_of_number mn mx size))
    as [_ H].
  - apply forallb_forall. intros c Hc. apply in_map_iff in Hc.
    now destruct Hc as [f [<- _]].
  - cbn [get_pixel] in E.
    destruct (comprehension _ (map (@PFloat float) cs)) as [bs|e];
      cbn in E; [|discriminate].
    injection E as <-. destruct (H bs eq_refl) as [qs [-> Hlen]].
    exists qs. split; [reflexivity|]. now rewrite Hlen, length_map.
Qed.

(** X12: the conversion of a polygon to pixel vertices raises [IndexError]
    on an empty exterior ring; when it returns, it gives one vertex per
    vertex of the ring, each coordinate within the range of [int32]. *)
Theorem extract_points_vertices
        (p : polygon) (features : image_features) (min_x min_y : Z) :
  extract_points_from_polygon [] features min_x min_y = Raise IndexError /\
  forall points,
    extract_points_from_polygon p features min_x min_y = Ok points ->
    p <> [] /\
    List.length points = List.length p /\
    Forall (fun rc => in_int32 (fst rc) /\ in_int32 (snd rc)) points.
Proof.
  split; [reflexivity|]. intros points. unfold extract_points_from_polygon.
  destruct (get_pixel (PList (map (fun c => PFloat (fst c)) p)) _ _ _)
    as [xs|e] eqn:Ex; cbn [bind]; [|discriminate].
  destruct (get_pixel (PList (map (fun c => PFloat (snd c)) p)) _ _ _)
    as [ys|e] eqn:Ey; cbn [bind]; [|discriminate].
  rewrite <- (map_map fst (@PFloat float)) in Ex.
  rewrite <- (map_map snd (@PFloat float)) in Ey.
  apply get_pixel_floats in Ex. destruct Ex as [qx [-> Hx]].
  apply get_pixel_floats in Ey. destruct Ey as [qy [-> Hy]].
  rewrite !int_items_ints. rewrite length_map in Hx, Hy.
  destruct (comprehension _ (combine qx qy)) as [pts|e] eqn:Ec; cbn [bind];
    [|discriminate].
  apply comprehension_length in Ec. rewrite length_combine in Ec.
  destruct pts as [|pt pts]; [discriminate|].
  intros E. injection E as <-. split; [|split].
  - intros ->. cbn in Hx. cbn in Ec. lia.
  - cbn [map List.length] in *. rewrite ?length_map. lia.
  - apply Forall_forall. intros rc Hin.
    change (In rc (map (fun rc0 => (wrap_int32 (fst rc0 - min_y),
                                    wrap_int32 (snd rc0 - min_x)))
                       (pt :: pts))) in Hin.
    apply in_map_iff in Hin.
    destruct Hin as [rc' [<- _]]. split; apply wrap_int32_range.
Qed.

(** X11 (witness): a name of the registry of the Tanzania dataset and a
    name that is not in it. *)
Lemma label_lookup_first_match_witness :
  label_id_of (TanzaniaDataset_init 10) "foundation" = Ok 3 /\
  label_id_of (TanzaniaDataset_init 10) "ruin" = Raise IndexError.
Proof.
  split.
  - destruct (label_lookup_first_match (TanzaniaDataset_init 10)
                                       "foundation") as [H _].
    apply (H [ {| label_id := 0; label_name := "background";
                  label_color := BACKGROUND_COLOR;
                  label_is_evaluate := true |};
               {| label_id := 1; label_name := "complete";
                  label_color := COMPLETE_COLOR;
                  label_is_evaluate := true |};
               {| label_id := 2; label_name := "incomplete";
                  label_color := INCOMPLETE_COLOR;
                  label_is_evaluate := true |} ]
             {| label_id := 3; label_name := "foundation";
                label_color := FOUNDATION_COLOR;
                label_is_evaluate := true |}
             []).
    + reflexivity.
    + reflexivity.
    + intros l [<-|[<-|[<-|[]]]]; discriminate.
  - destruct (label_lookup_first_match (TanzaniaDataset_init 10) "ruin")
      as [_ H].
    apply H. cbn. intros [E|[E|[E|[E|[]]]]]; discriminate E.
Defined.

(** X12 (witness): the polygon of the sample row, on the tile at
    (45, 45). *)
Lemma extract_points_vertices_witness :
  exists points,
    extract_points_from_polygon (geometry Demo.ruin) Demo.features_100 45 45
    = Ok points /\
    List.length points = 4%nat /\
    Forall (fun rc => in_int32 (fst rc) /\ in_int32 (snd rc)) points.
Proof.
  assert (E : exists points,
             extract_points_from_polygon (geometry Demo.ruin)
                                         Demo.features_100 45 45
             = Ok points).
  { eexists. vm_compute. reflexivity. }
  destruct E as [points E]. exists points. split; [exact E|].
  destruct (extract_points_vertices (geometry Demo.ruin) Demo.features_100
                                    45 45) as [_ H].
  destruct (H points E) as [_ [Hlen Hall]].
  split; [exact Hlen|exact Hall].
Defined.

(** ** Degenerate bounds of the coordinate transforms *)

Lemma sub_self_zero_or_nan (x : spec_float) : zero_or_nan (SF64sub x x).
Proof.
  destruct x as [s|s| |s m e]; unfold SF64sub, SFsub.
  - left. destruct s; eexists; reflexivity.
  - right. destruct s; reflexivity.
  - right. reflexivity.
  - left. cbv zeta. rewrite Z.sub_diag. exists false. reflexivity.
Qed.

Lemma sub_self_finite (x : spec_float) :
  x <> S754_nan -> (forall s, x <> S754_infinity s) ->
  exists s, SF64sub x x = S754_zero s.
Proof.
  intros Hn Hi. destruct x as [s|s| |s m e]; unfold SF64sub, SFsub.
  - destruct s; eexists; reflexivity.
  - now destruct (Hi s).
  - now destruct Hn.
  - cbv zeta. rewrite Z.sub_diag. exists false. reflexivity.
Qed.

Lemma mul_zero_or_nan (x y : spec_float) :
  zero_or_nan y -> zero_or_nan (SF64mul x y).
Proof.
  intros [[s ->]| ->]; destruct x as [sx|sx| |sx m e]; cbn;
    try (right; reflexivity); left; eexists; reflexivity.
Qed.

Lemma div_zero_or_nan (x y : spec_float) :
  zero_or_nan x -> zero_or_nan (SF64div x y).
Proof.
  intros [[s ->]| ->]; destruct y as [sy|sy| |sy m e]; cbn;
    try (right; reflexivity); left; eexists; reflexivity.
Qed.

Lemma to_int_zero_or_nan (q : float) :
  zero_or_nan (Prim2SF q) ->
  Binary64.to_int q = Ok 0 \/ Binary64.to_int q = Raise ValueError.
Proof.
  unfold Binary64.to_int. intros [[s ->]| ->]; [left|right]; reflexivity.
Qed.

Lemma eqb_zero_of_zero (x : float) (s : bool) :
  Prim2SF x = S754_zero s -> PrimFloat.eqb x PrimFloat.zero = true.
Proof. intros E. rewrite eqb_spec, E. reflexivity. Qed.

Lemma is_finite_class (x : float) :
  PrimFloat.is_finite x = true ->
  Prim2SF x <> S754_nan /\ forall s, Prim2SF x <> S754_infinity s.
Proof.
  unfold PrimFloat.is_finite, PrimFloat.is_nan, PrimFloat.is_infinity.
  rewrite negb_true_iff, orb_false_iff, negb_false_iff, !eqb_spec, abs_spec.
  intros [Hn Hi]. split.
  - intros E. rewrite E in Hn. discriminate.
  - intros s E. rewrite E in Hi. discriminate.
Qed.

(** The quotient of [get_pixel] at the lower bound is a zero or not a
    number. *)
Lemma pixel_quotient_at_min (s mn mx : float) :
  zero_or_nan
    (Prim2SF (PrimFloat.div (PrimFloat.mul s (PrimFloat.sub mn mn))
                            (PrimFloat.sub mx mn))).
Proof.
  rewrite div_spec, mul_spec, (sub_spec mn mn).
  apply div_zero_or_nan, mul_zero_or_nan, sub_self_zero_or_nan.
Qed.

(** X13: the lower bound of the raster maps to pixel [0]: whenever
    [get_pixel] returns on [min_coord] itself, it returns [0]. *)
Theorem get_pixel_of_min_bound (mn mx : float) (size : Z) (v : pyval float) :
  get_pixel (PFloat mn) mn mx size = Ok v -> v = PInt 0.
Proof.
  cbn [get_pixel]. unfold pixel_of. cbn [as_float bind].
  change (float_of_int size) with (Binary64.of_int size).
  destruct (Binary64.of_int size) as [s|e]; cbn [bind fmap];
    [|discriminate].
  change (float_truediv ?a ?b) with (Binary64.truediv a b).
  change (float_mul ?a ?b) with (PrimFloat.mul a b).
  change (float_sub ?a ?b) with (PrimFloat.sub a b).
  unfold Binary64.truediv.
  destruct (PrimFloat.eqb (PrimFloat.sub mx mn) PrimFloat.zero);
    cbn [bind fmap]; [discriminate|].
  change (int_of_float ?a) with (Binary64.to_int a).
  destruct (to_int_zero_or_nan _ (pixel_quotient_at_min s mn mx)) as [E|E];
    rewrite E; cbn [fmap]; [|discriminate].
  intros H. now injection H as <-.
Qed.

(** X13 (witness): the west bound of the sample raster. *)
Lemma get_pixel_of_min_bound_witness :
  exists v,
    get_pixel (PFloat sample_west) sample_west sample_east sample_width
    = Ok v /\ v = PInt 0.
Proof.
  assert (E : get_pixel (PFloat sample_west) sample_west sample_east
                        sample_width = Ok (PInt 0))
    by (vm_compute; reflexivity).
  exists (PInt 0). split; [exact E|].
  exact (get_pixel_of_min_bound sample_west sample_east sample_width
           (PInt 0) E).
Defined.

(** X14: with [min_coord = max_coord], [get_pixel] never returns on a
    float; when the bound is finite and [size] converts, it raises
    [ZeroDivisionError]. *)
Theorem get_pixel_degenerate_bounds (c b : float) (size : Z) :
  (forall v, get_pixel (PFloat c) b b size <> Ok v) /\
  (PrimFloat.is_finite b = true ->
   forall s, Binary64.of_int size = Ok s ->
             get_pixel (PFloat c) b b size = Raise ZeroDivisionError).
Proof.
  cbn [get_pixel]. unfold pixel_of. cbn [as_float bind].
  change (float_of_int size) with (Binary64.of_int size).
  change (float_truediv ?a ?b) with (Binary64.truediv a b).
  change (float_mul ?a ?b) with (PrimFloat.mul a b).
  change (float_sub ?a ?b) with (PrimFloat.sub a b).
  change (int_of_float ?a) with (Binary64.to_int a).
  unfold Binary64.truediv. split.
  - intros v. destruct (Binary64.of_int size) as [s|e]; cbn [bind fmap];
      [|discriminate].
    destruct (sub_self_zero_or_nan (Prim2SF b)) as [[z Ez]|En];
      rewrite <- sub_spec in *.
    + rewrite (eqb_zero_of_zero _ z Ez). cbn [bind fmap]. discriminate.
    + destruct (PrimFloat.eqb (PrimFloat.sub b b) PrimFloat.zero);
        cbn [bind fmap]; [discriminate|].
      unfold Binary64.to_int. rewrite div_spec, En.
      destruct (Prim2SF (PrimFloat.mul s (PrimFloat.sub c b)));
        cbn; discriminate.
  - intros Hb s Es. rewrite Es. cbn [bind fmap].
    destruct (is_finite_class b Hb) as [Hn Hi].
    destruct (sub_self_finite (Prim2SF b) Hn Hi) as [z Ez].
    rewrite <- sub_spec in Ez.
    rewrite (eqb_zero_of_zero _ z Ez). reflexivity.
Qed.

(** X14 (witness): both bounds at the west bound of the sample raster. *)
Lemma get_pixel_degenerate_bounds_witness :
  get_pixel (PFloat sample_east) sample_west sample_west sample_width
  = Raise ZeroDivisionError.
Proof.
  destruct (get_pixel_degenerate_bounds sample_east sample_west sample_width)
    as [_ H].
  apply (H eq_refl 4000%float). vm_compute. reflexivity.
Defined.

Lemma geocoord_zero_size (c : pyval float) (mn mx : float) :
  forall q, geocoord_of mn mx 0 c <> Ok q.
Proof.
  intros q. unfold geocoord_of.
  destruct (as_float c) as [c'|e]; cbn [bind]; [|discriminate].
  change (float_of_int 0) with (Binary64.of_int 0).
  change (Binary64.of_int 0) with (@Ok float PrimFloat.zero).
  cbn [bind].
  change (float_truediv ?a ?b) with (Binary64.truediv a b).
  unfold Binary64.truediv.
  change (PrimFloat.eqb PrimFloat.zero PrimFloat.zero) with true.
  cbn [bind]. discriminate.
Qed.

Lemma get_geocoord_int_zero_size (z : Z) (mn mx : float) :
  forall v, bind (get_geocoord (PInt z) mn mx 0) float_item <> Ok v.
Proof.
  intros v. cbn [get_geocoord].
  pose proof (geocoord_zero_size (PInt z) mn mx) as H.
  destruct (geocoord_of mn mx 0 (PInt z)) as [q|e]; cbn [fmap bind];
    [now destruct (H q)|discriminate].
Qed.

(** X15: a raster of width or height [0] has no tile footprint: the
    conversion to geographic coordinates divides by the size, and
    [get_tile_footprint] never returns. *)
Theorem tile_footprint_zero_size
        (features : image_features) (min_x min_y tile_width : Z)
        (tile_height : option Z) :
  width features = 0 \/ height features = 0 ->
  forall area,
    get_tile_footprint features min_x min_y tile_width tile_height
    <> Ok area.
Proof.
  intros Hz area. unfold get_tile_footprint. cbv zeta.
  destruct Hz as [Hw|Hh].
  - rewrite Hw.
    pose proof (get_geocoord_int_zero_size min_x (west features)
                  (east features)) as H.
    destruct (bind (get_geocoord (PInt min_x) _ _ 0) float_item) as [q|e];
      [now destruct (H q)|discriminate].
  - rewrite Hh.
    destruct (bind (get_geocoord (PInt min_x) _ _ _) float_item) as [q|e];
      cbn [bind]; [|discriminate].
    pose proof (get_geocoord_int_zero_size min_y (north features)
                  (south features)) as H.
    destruct (bind (get_geocoord (PInt min_y) _ _ 0) float_item) as [q'|e];
      [now destruct (H q')|discriminate].
Qed.

(** X15 (witness): the sample features with a width of [0]. *)
Lemma tile_footprint_zero_size_witness :
  get_tile_footprint
    {| west := west Demo.features_100; south := south Demo.features_100;
       east := east Demo.features_100; north := north Demo.features_100;
       srid := 32737; width := 0; height := 100 |} 0 0 10 None
  = Raise ZeroDivisionError /\
  forall area,
    get_tile_footprint
      {| west := west Demo.features_100; south := south Demo.features_100;
         east := east Demo.features_100; north := north Demo.features_100;
         srid := 32737; width := 0; height := 100 |} 0 0 10 None
    <> Ok area.
Proof.
  split; [vm_compute; reflexivity|].
  apply tile_footprint_zero_size. left. reflexivity.
Defined.

(** ** More on the sampling loop *)

Lemma py_slice_length {A : Type} (lo hi : Z) (l : list A) :
  0 <= lo <= hi -> hi <= Z.of_nat (List.length l) ->
  Z.of_nat (List.length (py_slice lo hi l)) = hi - lo.
Proof.
  intros Hlo Hhi. unfold py_slice.
  replace (lo <? 0) with false by (symmetry; apply Z.ltb_ge; lia).
  replace (hi <? 0) with false by (symmetry; apply Z.ltb_ge; lia).
  rewrite length_firstn, length_skipn. lia.
Qed.

Lemma py_slice_incl {A : Type} (lo hi : Z) (l : list A) (a : A) :
  In a (py_slice lo hi l) -> In a l.
Proof.
  unfold py_slice. intros H.
  match type of H with
  | In _ (firstn ?n (skipn ?m _)) =>
      rewrite <- (firstn_skipn m l); apply in_or_app; right;
      rewrite <- (firstn_skipn n (skipn m l)); apply in_or_app; left;
      exact H
  end.
Qed.

Lemma py_slice2_shape {A : Type} (x y s w h : Z) (a : list (list A)) :
  array_shape w h a ->
  0 <= s -> 0 <= x -> x + s <= w -> 0 <= y -> y + s <= h ->
  array_shape s s (py_slice2 x (x + s) y (y + s) a).
Proof.
  intros [Hw Hh] Hs Hx Hxs Hy Hys. unfold py_slice2, array_shape.
  rewrite length_map. split.
  - rewrite py_slice_length; lia.
  - apply Forall_map, Forall_forall. intros row Hrow.
    apply py_slice_incl in Hrow.
    rewrite Forall_forall in Hh. specialize (Hh row Hrow).
    rewrite py_slice_length; lia.
Qed.

Section MoreSampling.

Variable polygon_covers : list (Z * Z) -> Z -> Z -> bool.
Variable clip_labels : Z -> polygon -> list building -> list building.
Variable parse_srid : string -> result Z.
Variable label_dict : Type.
Variable build_labels : mask -> list Z -> string -> label_dict.
Variable build_image_from_config : mask -> list label -> image.
Variable rng : Type.
Variable randint_draw : rng -> Z -> Z -> Z * rng.

Local Abbreviation image_path := (@image_filename label_dict).

Variable self : TanzaniaDataset.
Variable image_filename : string.
Variable output_dir : string.
Variable nb_images : Z.
Variable r : raster.
Variable table : list building.

Local Abbreviation state := (loop_state label_dict rng).
Local Abbreviation draw := (tile_draw label_dict rng).
Local Abbreviation draw_tile' :=
  (draw_tile polygon_covers clip_labels parse_srid label_dict build_labels
             build_image_from_config rng randint_draw self r table).
Local Abbreviation loop_body' :=
  (loop_body polygon_covers clip_labels parse_srid label_dict build_labels
             build_image_from_config rng randint_draw self image_filename
             output_dir nb_images r table).
Local Abbreviation loop_guard' := (loop_guard label_dict rng nb_images).
Local Abbreviation while_loop' :=
  (while_loop polygon_covers clip_labels parse_srid label_dict build_labels
              build_image_from_config rng randint_draw self image_filename
              output_dir nb_images r table).
Local Abbreviation loop_runs' :=
  (loop_runs polygon_covers clip_labels parse_srid label_dict build_labels
             build_image_from_config rng randint_draw self image_filename
             output_dir nb_images r table).
Local Abbreviation final_state' := (final_state label_dict rng).
Local Abbreviation initial_state' := (initial_state label_dict rng).

(** The two draws of a turn, and the slice they cut. *)
Lemma draw_tile_origin (st : state) (t : draw) :
  draw_tile' st = Ok t ->
  exists g',
    0 < RasterXSize r - image_size self /\
    0 < RasterYSize r - image_size self /\
    (draw_x _ _ t, g')
    = randint_draw (rng_state _ _ st) 0 (RasterXSize r - image_size self) /\
    (draw_y _ _ t, draw_rng _ _ t)
    = randint_draw g' 0 (RasterYSize r - image_size self) /\
    draw_tile_image _ _ t
    = py_slice2 (draw_x _ _ t) (draw_x _ _ t + image_size self)
                (draw_y _ _ t) (draw_y _ _ t + image_size self)
                (image_data r).
Proof.
  unfold draw_tile, np_random_randint. cbv zeta.
  destruct (RasterXSize r - image_size self <=? 0) eqn:Hx; cbn [bind];
    [discriminate|].
  destruct (RasterYSize r - image_size self <=? 0) eqn:Hy; cbn [bind];
    [discriminate|].
  apply Z.leb_gt in Hx, Hy.
  repeat match goal with
         | |- context [bind ?m _] =>
             let E := fresh "E" in
             destruct m eqn:E; cbn [bind]; try discriminate
         end.
  intros Et. injection Et as <-.
  cbn [draw_x draw_y draw_rng draw_tile_image].
  exists (snd (randint_draw (rng_state _ _ st) 0
                             (RasterXSize r - image_size self))).
  repeat split; try assumption; symmetry; apply surjective_pairing.
Qed.

(** What a turn appends to the records and to the files. *)
Lemma loop_body_appends (st st' : state) :
  loop_body' st = Ok st' ->
  exists recs written,
    result_dicts _ _ st' = result_dicts _ _ st ++ recs /\
    files _ _ st' = files _ _ st ++ written /\
    map fst written = flat_map record_paths recs /\
    Forall (labelled_record image_filename) recs /\
    image_counter _ _ st' = image_counter _ _ st + Z.of_nat (List.length recs) /\
    0 <= empty_image_counter _ _ st' - empty_image_counter _ _ st
      <= Z.of_nat (List.length recs).
Proof.
  unfold loop_body. destruct (draw_tile' st) as [t|e]; [|discriminate].
  cbn [bind]. unfold accept_tile.
  destruct (draw_tile_items _ _ t) as [|b bs].
  - cbn [List.length Z.of_nat Z.ltb Z.compare].
    destruct (under_empty_quota nb_images (empty_image_counter _ _ st))
      as [[|]|e]; cbn [bind]; [| |discriminate].
    + unfold _serialize, save. intros E. injection E as <-.
      cbn [result_dicts files image_counter empty_image_counter].
      eexists [_], [_; _]. split; [reflexivity|].
      split; [rewrite <- app_assoc; reflexivity|].
      split; [reflexivity|].
      split; [|cbn [List.length]; lia].
      constructor; [|constructor]. repeat split. discriminate.
    + intros E. injection E as <-.
      cbn [result_dicts files image_counter empty_image_counter].
      exists [], []. rewrite !app_nil_r.
      repeat split; try constructor; cbn [List.length]; lia.
  - replace (0 <? Z.of_nat (List.length (b :: bs))) with true
      by (symmetry; apply Z.ltb_lt; simpl List.length; lia).
    unfold serialize_four, _serialize, save. cbn [bind].
    intros E. injection E as <-.
    cbn [result_dicts files image_counter empty_image_counter].
    eexists [_; _; _; _], [_; _; _; _; _; _; _; _].
    split; [reflexivity|].
    split; [rewrite <- !app_assoc; reflexivity|].
    split; [reflexivity|].
    split; [|cbn [List.length]; lia].
    repeat constructor; discriminate.
Qed.

Lemma loop_runs_attempts (k : nat) (st : state) (o : outcome label_dict rng) :
  loop_runs' k st o ->
  forall st', o = Finished _ _ st' ->
              nb_attempts _ _ st' = nb_attempts _ _ st + Z.of_nat k.
Proof.
  induction 1 as [st G|st e G B|st st1 k o G B Hr IH]; intros st' E.
  - injection E as <-. cbn. lia.
  - discriminate.
  - rewrite (IH st' E).
    rewrite (loop_body_attempts polygon_covers clip_labels parse_srid
               label_dict build_labels build_image_from_config rng
               randint_draw self image_filename output_dir nb_images r
               table st st1 B).
    lia.
Qed.

(** X16: a raster that is not strictly larger than the tile in both
    directions cannot be sampled: with a positive target the first turn
    raises [ValueError] before anything is written, and with a target of
    zero or less the loop is not entered. *)
Theorem sampling_small_raster (g : rng) (d : disk) (fuel : nat) :
  RasterXSize r <= image_size self \/ RasterYSize r <= image_size self ->
  (0 < nb_images ->
   while_loop' (S fuel) (initial_state' g d)
   = Some (Raised _ _ ValueError (initial_state' g d))) /\
  (nb_images <= 0 ->
   while_loop' (S fuel) (initial_state' g d)
   = Some (Finished _ _ (initial_state' g d))).
Proof.
  intros Hsmall. cbn [while_loop]. unfold loop_guard.
  cbn [initial_state image_counter nb_attempts]. split; intros Hn.
  - replace (0 <? nb_images) with true by (symmetry; apply Z.ltb_lt; lia).
    replace (0 <? 2 * nb_images) with true
      by (symmetry; apply Z.ltb_lt; lia).
    cbn [andb]. unfold loop_body, draw_tile, np_random_randint.
    cbv zeta. cbn [rng_state].
    destruct (RasterXSize r - image_size self <=? 0) eqn:Hx; cbn [bind];
      [reflexivity|].
    apply Z.leb_gt in Hx.
    replace (RasterYSize r - image_size self <=? 0) with true
      by (symmetry; apply Z.leb_le; lia).
    reflexivity.
  - replace (0 <? nb_images) with false by (symmetry; apply Z.ltb_ge; lia).
    reflexivity.
Qed.

(** X17: with a generator that draws within its bounds, a sampled tile lies
    inside the raster and stops short of its last column and of its last
    row; on a raster whose array has the announced size, the tile image is
    [image_size] by [image_size]. *)
Theorem sampled_tile_inside_raster (st : state) (t : draw) :
  (forall g lo hi, lo < hi -> lo <= fst (randint_draw g lo hi) < hi) ->
  draw_tile' st = Ok t ->
  (0 <= draw_x _ _ t /\
   draw_x _ _ t + image_size self < RasterXSize r /\
   0 <= draw_y _ _ t /\
   draw_y _ _ t + image_size self < RasterYSize r) /\
  (0 <= image_size self ->
   array_shape (RasterXSize r) (RasterYSize r) (image_data r) ->
   array_shape (image_size self) (image_size self)
               (draw_tile_image _ _ t)).
Proof.
  intros Hrange Hd.
  destruct (draw_tile_origin st t Hd) as [g' [Hw [Hh [Ex [Ey Eimg]]]]].
  pose proof (Hrange (rng_state _ _ st) 0 _ Hw) as Hx.
  pose proof (Hrange g' 0 _ Hh) as Hy.
  rewrite <- Ex in Hx. rewrite <- Ey in Hy. cbn [fst] in Hx, Hy.
  split; [lia|]. intros Hs Hshape. rewrite Eimg.
  apply (py_slice2_shape _ _ _ _ _ _ Hshape); lia.
Qed.

(** X18: however the loop ends, the files it has written are those that
    were there before, followed by the image and the labelled image of each
    record, in the order of the records; every record names the raster, has
    labels and has its label path read off its image path; the records are
    as many as [image_counter], which the count of tiles without buildings
    does not exceed. *)
Theorem sampling_records_account_for_files
        (g : rng) (d : disk) (k : nat) (o : outcome label_dict rng) :
  loop_runs' k (initial_state' g d) o ->
  exists written,
    files _ _ (final_state' o) = d ++ written /\
    map fst written
    = flat_map record_paths (result_dicts _ _ (final_state' o)) /\
    Forall (labelled_record image_filename)
           (result_dicts _ _ (final_state' o)) /\
    Z.of_nat (List.length (result_dicts _ _ (final_state' o)))
    = image_counter _ _ (final_state' o) /\
    0 <= empty_image_counter _ _ (final_state' o)
      <= image_counter _ _ (final_state' o).
Proof.
  intros Hr.
  destruct (loop_runs_invariant polygon_covers clip_labels parse_srid
              label_dict build_labels build_image_from_config rng
              randint_draw self image_filename output_dir nb_images r table
              (fun s =>
                 exists written,
                   files _ _ s = d ++ written /\
                   map fst written
                   = flat_map record_paths (result_dicts _ _ s) /\
                   Forall (labelled_record image_filename)
                          (result_dicts _ _ s) /\
                   Z.of_nat (List.length (result_dicts _ _ s))
                   = image_counter _ _ s /\
                   0 <= empty_image_counter _ _ s <= image_counter _ _ s))
    with (k := k) (st := initial_state' g d) (o := o) as [H _].
  - intros s s' _ B [w [Hf [Hp [Hl [Hc He]]]]].
    destruct (loop_body_appends s s' B)
      as [recs [w' [Er [Ef [Ep [El [Ec Ee]]]]]]].
    exists (w ++ w'). rewrite Er, Ef, Hf, Ec.
    rewrite map_app, flat_map_app, length_app, Hp, Ep.
    split; [now rewrite app_assoc|]. split; [reflexivity|].
    split; [now apply Forall_app|]. split; lia.
  - exact Hr.
  - exists []. cbn. rewrite app_nil_r. repeat split; try constructor; lia.
  - exact H.
Qed.

(** X19: when the loop ends normally, [nb_attempts] is the number of turns
    it made; if fewer than [nb_images] images were counted, the attempts
    were used up: [nb_attempts = 2 * nb_images]. *)
Theorem sampling_shortfall_uses_all_attempts
        (g : rng) (d : disk) (k : nat) (st : state) :
  loop_runs' k (initial_state' g d) (Finished _ _ st) ->
  nb_attempts _ _ st = Z.of_nat k /\
  (image_counter _ _ st < nb_images -> nb_attempts _ _ st = 2 * nb_images).
Proof.
  intros Hr.
  pose proof (loop_runs_attempts k _ _ Hr st eq_refl) as Hk.
  cbn [initial_state nb_attempts] in Hk. split; [lia|]. intros Hshort.
  destruct (loop_runs_invariant polygon_covers clip_labels parse_srid
              label_dict build_labels build_image_from_config rng
              randint_draw self image_filename output_dir nb_images r table
              (fun s => nb_attempts _ _ s <= Z.max 0 (2 * nb_images) /\
                        0 <= image_counter _ _ s))
    with (k := k) (st := initial_state' g d) (o := Finished _ _ st)
    as [[Hmax Hpos] Hexit].
  - intros s s' G B [Hs Hc].
    apply (loop_guard_spec label_dict rng nb_images) in G.
    destruct (loop_body_appends s s' B) as [recs [w [_ [_ [_ [_ [Ec _]]]]]]].
    rewrite Ec.
    rewrite (loop_body_attempts polygon_covers clip_labels parse_srid
               label_dict build_labels build_image_from_config rng
               randint_draw self image_filename output_dir nb_images r
               table s s' B).
    lia.
  - exact Hr.
  - cbn. lia.
  - cbn [final_state] in Hmax, Hpos. specialize (Hexit st eq_refl).
    assert (G : ~ (image_counter _ _ st < nb_images /\
                   nb_attempts _ _ st < 2 * nb_images)).
    { intros G. apply (loop_guard_spec label_dict rng nb_images) in G.
      congruence. }
    lia.
Qed.

End MoreSampling.

(** X16 (witness): the sample raster, 100 by 100, in tiles of 100. *)
Lemma sampling_small_raster_witness :
  while_loop Demo.box_covers Demo.clip_all Demo.srid_32737
             (list (Z * bool)) Demo.present_labels Demo.colour_mask Z
             Demo.lcg_draw (TanzaniaDataset_init 100)
             "data/images/grid_001.tif" "out" 10 Demo.raster_100
             Demo.buildings 1 (initial_state _ _ 42 [])
  = Some (Raised _ _ ValueError (initial_state _ _ 42 [])).
Proof.
  destruct (sampling_small_raster Demo.box_covers Demo.clip_all
              Demo.srid_32737 (list (Z * bool)) Demo.present_labels
              Demo.colour_mask Z Demo.lcg_draw (TanzaniaDataset_init 100)
              "data/images/grid_001.tif" "out" 10 Demo.raster_100
              Demo.buildings 42 [] 0%nat) as [H _].
  - left. cbn. lia.
  - apply H. lia.
Defined.

Lemma lcg_draw_in_range (g lo hi : Z) :
  lo < hi -> lo <= fst (Demo.lcg_draw g lo hi) < hi.
Proof.
  intros H. unfold Demo.lcg_draw. cbn [fst].
  pose proof (Z.mod_pos_bound g (hi - lo) ltac:(lia)). lia.
Qed.

Lemma raster_100_shape :
  array_shape 100 100 (image_data Demo.raster_100).
Proof.
  split; [reflexivity|]. apply Forall_forall. intros row H.
  apply repeat_spec in H. subst row. reflexivity.
Qed.

(** The first draw on the sample raster. *)
Lemma sample_first_draw :
  exists t,
    draw_tile Demo.box_covers Demo.clip_all Demo.srid_32737
              (list (Z * bool)) Demo.present_labels Demo.colour_mask
              Z Demo.lcg_draw (TanzaniaDataset_init 10)
              Demo.raster_100 Demo.buildings
              (initial_state _ _ 42 []) = Ok t.
Proof. eexists. vm_compute. reflexivity. Qed.

(** X17 (witness): the first draw on the sample raster. *)
Lemma sampled_tile_inside_raster_witness :
  exists t,
    draw_tile Demo.box_covers Demo.clip_all Demo.srid_32737
              (list (Z * bool)) Demo.present_labels Demo.colour_mask
              Z Demo.lcg_draw (TanzaniaDataset_init 10)
              Demo.raster_100 Demo.buildings
              (initial_state _ _ 42 []) = Ok t /\
    draw_x _ _ t + 10 < 100 /\ draw_y _ _ t + 10 < 100 /\
    array_shape 10 10 (draw_tile_image _ _ t).
Proof.
  destruct sample_first_draw as [t D]. exists t. split; [exact D|].
  destruct (sampled_tile_inside_raster Demo.box_covers Demo.clip_all
              Demo.srid_32737 (list (Z * bool)) Demo.present_labels
              Demo.colour_mask Z Demo.lcg_draw (TanzaniaDataset_init 10)
              Demo.raster_100 Demo.buildings (initial_state _ _ 42 []) t
              lcg_draw_in_range D) as [[_ [Hx [_ Hy]]] Hs].
  split; [exact Hx|]. split; [exact Hy|].
  apply Hs; [cbn; lia|exact raster_100_shape].
Defined.

(** X18 (witness): the run with buildings in every tile. *)
Lemma sampling_records_account_for_files_witness :
  exists st written,
    Demo.sample Demo.clip_all 10 50 = Some (Finished _ _ st) /\
    files _ _ st = [] ++ written /\
    map fst written = flat_map record_paths (result_dicts _ _ st) /\
    Z.of_nat (List.length (result_dicts _ _ st)) = image_counter _ _ st.
Proof.
  destruct sample_run_finished as [st [E _]].
  destruct (while_loop_runs Demo.box_covers Demo.clip_all Demo.srid_32737
              (list (Z * bool)) Demo.present_labels Demo.colour_mask Z
              Demo.lcg_draw (TanzaniaDataset_init 10)
              "data/images/grid_001.tif" "out" 10 Demo.raster_100
              Demo.buildings 50 _ _ E) as [k Hr].
  destruct (sampling_records_account_for_files Demo.box_covers Demo.clip_all
              Demo.srid_32737 (list (Z * bool)) Demo.present_labels
              Demo.colour_mask Z Demo.lcg_draw (TanzaniaDataset_init 10)
              "data/images/grid_001.tif" "out" 10 Demo.raster_100
              Demo.buildings 42 [] k _ Hr)
    as [written [Hf [Hp [_ [Hc _]]]]].
  exists st, written. split; [exact E|]. split; [exact Hf|].
  split; [exact Hp|exact Hc].
Defined.

(** The all-background run ends normally with one image counted. *)
Lemma sample_background_finished :
  exists st,
    Demo.sample Demo.clip_none 10 21 = Some (Finished _ _ st) /\
    image_counter _ _ st = 1.
Proof. eexists. split; vm_compute; reflexivity. Qed.

(** X19 (witness): the all-background run, one image out of ten. *)
Lemma sampling_shortfall_uses_all_attempts_witness :
  exists st,
    Demo.sample Demo.clip_none 10 21 = Some (Finished _ _ st) /\
    nb_attempts _ _ st = 20.
Proof.
  destruct sample_background_finished as [st [E Hc]].
  exists st. split; [exact E|].
  destruct (while_loop_runs Demo.box_covers Demo.clip_none Demo.srid_32737
              (list (Z * bool)) Demo.present_labels Demo.colour_mask Z
              Demo.lcg_draw (TanzaniaDataset_init 10)
              "data/images/grid_001.tif" "out" 10 Demo.raster_100
              Demo.buildings 21 _ _ E) as [k Hr].
  destruct (sampling_shortfall_uses_all_attempts Demo.box_covers
              Demo.clip_none Demo.srid_32737 (list (Z * bool))
              Demo.present_labels Demo.colour_mask Z Demo.lcg_draw
              (TanzaniaDataset_init 10) "data/images/grid_001.tif" "out" 10
              Demo.raster_100 Demo.buildings 42 [] k st Hr) as [_ H].
  rewrite H; [reflexivity|]. rewrite Hc. lia.
Defined.

(** ** The label file of a raster and its rows *)

Local Open Scope string_scope.

(** At the end of a text without [".tif"], the extension is the only
    occurrence replaced. *)
Lemma replace_tif_end (pre : string) :
  contains ".tif" pre = false ->
  replace ".tif" ".geojson" (pre ++ ".tif") = pre ++ ".geojson".
Proof.
  unfold replace. induction pre as [|c pre IH]; intros H; [reflexivity|].
  apply contains_cons in H. destruct H as [Hp Hc].
  change (String c pre ++ ".tif") with (String c (pre ++ ".tif")).
  cbn [replace_from].
  destruct (prefix ".tif" (String c (pre ++ ".tif"))) eqn:E.
  - exfalso. cbn [prefix] in E, Hp.
    destruct (ascii_dec "." c) as [<-|]; [|discriminate].
    change (pre ++ ".tif") with (pre ++ String "." "tif") in E.
    apply prefix_app_sep in E; [congruence|reflexivity].
  - rewrite (IH Hc). reflexivity.
Qed.

Lemma training_label_path (dir name : string) :
  contains "images" dir = false -> contains "images" name = false ->
  contains ".tif" dir = false -> contains ".tif" name = false ->
  replace ".tif" ".geojson"
          (replace "images" "labels" (dir ++ "/images/" ++ name ++ ".tif"))
  = dir ++ "/labels/" ++ name ++ ".geojson".
Proof.
  intros Hid Hin Htd Htn.
  change (dir ++ "/images/" ++ name ++ ".tif")
    with (dir ++ "/" ++ "images/" ++ name ++ ".tif").
  rewrite <- (append_assoc_str dir "/").
  rewrite replace_images_segment_after.
  - rewrite (append_assoc_str dir "/").
    change ("/" ++ "labels/" ++ name ++ ".tif")
      with ("/labels/" ++ name ++ ".tif").
    rewrite <- (append_assoc_str "/labels/" name ".tif").
    rewrite <- (append_assoc_str dir ("/labels/" ++ name) ".tif").
    rewrite replace_tif_end.
    + now rewrite !append_assoc_str.
    + change (dir ++ "/labels/" ++ name)
        with (dir ++ String "/" ("labels" ++ String "/" name)).
      apply contains_app_sep; try reflexivity; try discriminate;
        [exact Htd|].
      apply contains_app_sep; try reflexivity; try discriminate.
      exact Htn.
  - change (dir ++ "/") with (dir ++ String "/" "").
    apply contains_app_sep; try reflexivity; try discriminate. exact Hid.
  - change (name ++ ".tif") with (name ++ String "." "tif").
    apply contains_app_sep; try reflexivity; try discriminate. exact Hin.
Qed.

Local Open Scope Z_scope.

Section LabelFile.

Variable polygon_covers : list (Z * Z) -> Z -> Z -> bool.
Variable clip_labels : Z -> polygon -> list building -> list building.
Variable gdal_Open : string -> raster.
Variable parse_srid : string -> result Z.
Variable read_file : string -> list raw_building.
Variable label_dict : Type.
Variable build_labels : mask -> list Z -> string -> label_dict.
Variable build_image_from_config : mask -> list label -> image.
Variable rng : Type.
Variable randint_draw : rng -> Z -> Z -> Z * rng.

Local Abbreviation preprocess_for_training :=
  (_preprocess_for_training polygon_covers clip_labels gdal_Open parse_srid
                            read_file label_dict build_labels
                            build_image_from_config rng randint_draw).
Local Abbreviation sampling_loop self image_filename output_dir nb_images
      label_file fuel g d :=
  (while_loop polygon_covers clip_labels parse_srid label_dict build_labels
              build_image_from_config rng randint_draw self image_filename
              output_dir nb_images (gdal_Open image_filename)
              (clean_labels (read_file label_file)) fuel
              (initial_state label_dict rng g d)).

(** X20: the labels of a raster [<dir>/images/<name>.tif] are read from
    [<dir>/labels/<name>.geojson] when neither [<dir>] nor [<name>] contains
    ["images"] or [".tif"]; a path that contains neither word is itself the
    file the labels are read from. *)
Theorem training_label_file
        (fuel : nat) (self : TanzaniaDataset) (output_dir : string)
        (nb_images : Z) (g : rng) (d : disk) :
  (forall dir name,
      contains "images" dir = false -> contains "images" name = false ->
      contains ".tif" dir = false -> contains ".tif" name = false ->
      preprocess_for_training fuel self
        (dir ++ "/images/" ++ name ++ ".tif")%string output_dir nb_images g d
      = sampling_loop self (dir ++ "/images/" ++ name ++ ".tif")%string
                      output_dir nb_images
                      (dir ++ "/labels/" ++ name ++ ".geojson")%string
                      fuel g d) /\
  (forall image_filename,
      contains "images" image_filename = false ->
      contains ".tif" image_filename = false ->
      preprocess_for_training fuel self image_filename output_dir nb_images
                              g d
      = sampling_loop self image_filename output_dir nb_images
                      image_filename fuel g d).
Proof.
  split.
  - intros dir name Hid Hin Htd Htn. unfold _preprocess_for_training.
    cbv zeta. now rewrite training_label_path.
  - intros f Hi Ht. unfold _preprocess_for_training. cbv zeta.
    unfold replace. rewrite (replace_from_absent "images" "labels" f Hi).
    now rewrite (replace_from_absent ".tif" ".geojson" f Ht).
Qed.


End LabelFile.

(** X20 (witness): the raster of the sample run. *)
Lemma training_label_file_witness :
  _preprocess_for_training
    Demo.box_covers Demo.clip_all Demo.open_raster Demo.srid_32737
    (fun p => if (p =? "data/labels/grid_001.geojson")%string
              then Demo.label_file p else [])
    (list (Z * bool)) Demo.present_labels Demo.colour_mask Z Demo.lcg_draw
    50 (TanzaniaDataset_init 10) "data/images/grid_001.tif" "out" 10 42 []
  = Demo.sample Demo.clip_all 10 50.
Proof.
  destruct (training_label_file
              Demo.box_covers Demo.clip_all Demo.open_raster Demo.srid_32737
              (fun p => if (p =? "data/labels/grid_001.geojson")%string
                        then Demo.label_file p else [])
              (list (Z * bool)) Demo.present_labels Demo.colour_mask Z
              Demo.lcg_draw 50 (TanzaniaDataset_init 10) "out" 10 42 [])
    as [H _].
  exact (H "data"%string "grid_001"%string eq_refl eq_refl eq_refl eq_refl).
Defined.

